(** * MultisigPolicyFhe: a shallow embedding of contracts/Multisig_Policy_Fhe.sol

    The contract keeps numbered batches of encrypted totals, evaluates a
    two-tier threshold policy homomorphically and discloses the resulting
    boolean through a request/callback exchange with a decryption oracle.

    Storage mappings are finite maps read with the Solidity default value,
    [uint256] quantities are integers with the checked arithmetic of
    Solidity 0.8 written out, and every external function is a computation
    in a small reader/state/error/log monad.  The FHE library and the
    decryption oracle are imported by the contract, not part of it: they
    are an interface ([FHELib]) whose laws are separate classes.  The two
    internal helpers [_initIfNeeded] and [_requireInitialized] have no call
    site and are left out. *)

From stdpp Require Import base decidable option list gmap strings.
From Stdlib Require Import ZArith Lia.
From Stdlib Require Import Init.Byte.

Local Open Scope Z_scope.

(** ** Solidity value types *)

Abbreviation address := Z (only parsing).
Abbreviation uint256 := Z (only parsing).
Abbreviation bytes := (list byte) (only parsing).

Definition uint256_max : Z := 2 ^ 256 - 1.

(** A storage mapping read: an absent key yields the type's zero value. *)
Definition mapping_get {V : Type} (zero : V) (m : gmap Z V) (k : Z) : V :=
  default zero (m !! k).

(** The unsigned big-endian value of a byte string. *)
Definition word_value (word : bytes) : Z :=
  fold_left (λ acc b, acc * 256 + Z.of_N (Byte.to_N b)) word 0.

(** [abi.decode(data, (bool))]: the first 32-byte word must be present and
    must be 0 or 1; anything else reverts. *)
Definition abi_decode_bool (data : bytes) : option bool :=
  if (length data <? 32)%nat then None
  else
    let v := word_value (take 32 data) in
    if v =? 0 then Some false
    else if v =? 1 then Some true
    else None.

(** ** The imported library: encrypted values, hashing, decryption oracle *)

Inductive Selector := myCallback_selector.

Class FHELib := {
  euint32 : Type;
  ebool : Type;
  bytes32 : Type;
  bytes32_eq_dec :: EqDecision bytes32;
  (** the zero word, i.e. what an unwritten storage slot holds *)
  euint32_zero : euint32;
  bytes32_zero : bytes32;
  FHE_asEuint32 : Z → euint32;
  FHE_add : euint32 → euint32 → euint32;
  FHE_le : euint32 → euint32 → ebool;
  FHE_gt : euint32 → euint32 → ebool;
  FHE_ge : euint32 → euint32 → ebool;
  FHE_and : ebool → ebool → ebool;
  FHE_or : ebool → ebool → ebool;
  FHE_toBytes32 : ebool → bytes32;
  (** [keccak256(abi.encode(cts, a))] *)
  keccak256_encode : list bytes32 → address → bytes32;
  (** the oracle side of the library: its own bookkeeping, the request
      entry point and the proof check *)
  oracle_st : Type;
  FHE_requestDecryption : oracle_st → list bytes32 → Selector → uint256 * oracle_st;
  FHE_checkSignatures : oracle_st → uint256 → bytes → bytes → bool;
}.

(** Plaintext meaning of ciphertext handles: the homomorphic operators
    compute on 32-bit unsigned integers and booleans. *)
Class FHESemantics (F : FHELib) := {
  dec32 : euint32 → Z;
  decb : ebool → bool;
  dec_asEuint32 : ∀ v, dec32 (FHE_asEuint32 v) = v mod 2 ^ 32;
  dec_add : ∀ a b, dec32 (FHE_add a b) = (dec32 a + dec32 b) mod 2 ^ 32;
  dec_le : ∀ a b, decb (FHE_le a b) = (dec32 a <=? dec32 b);
  dec_gt : ∀ a b, decb (FHE_gt a b) = (dec32 b <? dec32 a);
  dec_ge : ∀ a b, decb (FHE_ge a b) = (dec32 b <=? dec32 a);
  dec_and : ∀ p q, decb (FHE_and p q) = decb p && decb q;
  dec_or : ∀ p q, decb (FHE_or p q) = decb p || decb q;
}.

(** Handles are content addressed and the digest is collision free: the
    symbolic idealisation of the library's handle derivation and of
    keccak256. *)
Class FHECollisionFree (F : FHELib) := {
  FHE_le_inj : ∀ a b a' b', FHE_le a b = FHE_le a' b' → a = a' ∧ b = b';
  FHE_gt_inj : ∀ a b a' b', FHE_gt a b = FHE_gt a' b' → a = a' ∧ b = b';
  FHE_ge_inj : ∀ a b a' b', FHE_ge a b = FHE_ge a' b' → a = a' ∧ b = b';
  FHE_and_inj : ∀ p q p' q', FHE_and p q = FHE_and p' q' → p = p' ∧ q = q';
  FHE_or_inj : ∀ p q p' q', FHE_or p q = FHE_or p' q' → p = p' ∧ q = q';
  FHE_add_fresh : ∀ a b, FHE_add a b ≠ a;
  FHE_toBytes32_inj : ∀ p q, FHE_toBytes32 p = FHE_toBytes32 q → p = q;
  keccak256_encode_inj :
    ∀ l a l' a', keccak256_encode l a = keccak256_encode l' a' → l = l' ∧ a = a';
}.

(** The oracle never hands out the same request identifier twice. *)
Class OracleFresh (F : FHELib) := {
  issued : oracle_st → uint256 → Prop;
  request_fresh :
    ∀ o cts sel, ¬ issued o (FHE_requestDecryption o cts sel).1;
  request_issued :
    ∀ o cts sel r,
      issued (FHE_requestDecryption o cts sel).2 r
      ↔ issued o r ∨ r = (FHE_requestDecryption o cts sel).1;
}.

(** The address the contract is deployed at, [address(this)]. *)
Class Deployment := { this : address }.

(** ** Errors and events *)

Module Error.
Inductive t :=
| NotOwner
| NotProvider
| Paused
| CooldownActive
| BatchClosed
| BatchOpen
| InvalidThreshold
| InvalidLimit
| ReplayAttempt
| StateMismatch
| DecryptionFailed
| RequireFailed (reason : string)   (* require(cond, reason) *)
| Panic                              (* checked arithmetic overflow *)
| AbiDecode.                         (* abi.decode on malformed data *)
End Error.

Module Event.
Inductive t :=
| OwnershipTransferred (previousOwner newOwner : address)
| ProviderAdded (provider : address)
| ProviderRemoved (provider : address)
| PausedContract (account : address)
| UnpausedContract (account : address)
| CooldownSecondsSet (oldCooldown newCooldown : uint256)
| BatchOpened (batchId : uint256)
| BatchClosed (batchId : uint256)
| PolicyParametersSubmitted (batchId : uint256) (provider : address)
| TransactionSubmitted (batchId : uint256) (provider : address)
| DecryptionRequested (requestId batchId : uint256)
| DecryptionCompleted (requestId batchId : uint256) (approved : bool).
End Event.

Section Contract.
Context {F : FHELib} {D : Deployment}.

(** ** Storage *)

Record DecryptionContext := {
  batchId : uint256;
  stateHash : bytes32;
  processed : bool;
}.

Record Batch := {
  id : uint256;
  isOpen : bool;
  totalAmountEncrypted : euint32;
  numApprovalsEncrypted : euint32;
  threshold2Encrypted : euint32;
  threshold4Encrypted : euint32;
  limitEncrypted : euint32;
}.

Record State := {
  owner : address;
  isProvider : gmap Z bool;
  lastSubmissionTime : gmap Z Z;
  lastDecryptionRequestTime : gmap Z Z;
  cooldownSeconds : uint256;
  paused : bool;
  decryptionContexts : gmap Z DecryptionContext;
  batches : gmap Z Batch;
  currentBatchId : uint256;
  (** storage owned by the imported library *)
  oracle : oracle_st;
}.

Definition DecryptionContext_zero : DecryptionContext :=
  {| batchId := 0; stateHash := bytes32_zero; processed := false |}.

Definition Batch_zero : Batch :=
  {| id := 0; isOpen := false;
     totalAmountEncrypted := euint32_zero;
     numApprovalsEncrypted := euint32_zero;
     threshold2Encrypted := euint32_zero;
     threshold4Encrypted := euint32_zero;
     limitEncrypted := euint32_zero |}.

(** Reads of the public mappings. *)
Definition isProvider_of (s : State) (a : address) : bool :=
  mapping_get false (isProvider s) a.
Definition lastSubmissionTime_of (s : State) (a : address) : uint256 :=
  mapping_get 0 (lastSubmissionTime s) a.
Definition lastDecryptionRequestTime_of (s : State) (a : address) : uint256 :=
  mapping_get 0 (lastDecryptionRequestTime s) a.
Definition decryptionContexts_of (s : State) (r : uint256) : DecryptionContext :=
  mapping_get DecryptionContext_zero (decryptionContexts s) r.
Definition batches_of (s : State) (b : uint256) : Batch :=
  mapping_get Batch_zero (batches s) b.

(** Field updates. *)
Definition set_owner (v : address) (s : State) : State :=
  {| owner := v; isProvider := isProvider s;
     lastSubmissionTime := lastSubmissionTime s;
     lastDecryptionRequestTime := lastDecryptionRequestTime s;
     cooldownSeconds := cooldownSeconds s; paused := paused s;
     decryptionContexts := decryptionContexts s; batches := batches s;
     currentBatchId := currentBatchId s; oracle := oracle s |}.
Definition set_isProvider (v : gmap Z bool) (s : State) : State :=
  {| owner := owner s; isProvider := v;
     lastSubmissionTime := lastSubmissionTime s;
     lastDecryptionRequestTime := lastDecryptionRequestTime s;
     cooldownSeconds := cooldownSeconds s; paused := paused s;
     decryptionContexts := decryptionContexts s; batches := batches s;
     currentBatchId := currentBatchId s; oracle := oracle s |}.
Definition set_lastSubmissionTime (v : gmap Z Z) (s : State) : State :=
  {| owner := owner s; isProvider := isProvider s;
     lastSubmissionTime := v;
     lastDecryptionRequestTime := lastDecryptionRequestTime s;
     cooldownSeconds := cooldownSeconds s; paused := paused s;
     decryptionContexts := decryptionContexts s; batches := batches s;
     currentBatchId := currentBatchId s; oracle := oracle s |}.
Definition set_lastDecryptionRequestTime (v : gmap Z Z) (s : State) : State :=
  {| owner := owner s; isProvider := isProvider s;
     lastSubmissionTime := lastSubmissionTime s;
     lastDecryptionRequestTime := v;
     cooldownSeconds := cooldownSeconds s; paused := paused s;
     decryptionContexts := decryptionContexts s; batches := batches s;
     currentBatchId := currentBatchId s; oracle := oracle s |}.
Definition set_cooldownSeconds (v : uint256) (s : State) : State :=
  {| owner := owner s; isProvider := isProvider s;
     lastSubmissionTime := lastSubmissionTime s;
     lastDecryptionRequestTime := lastDecryptionRequestTime s;
     cooldownSeconds := v; paused := paused s;
     decryptionContexts := decryptionContexts s; batches := batches s;
     currentBatchId := currentBatchId s; oracle := oracle s |}.
Definition set_paused (v : bool) (s : State) : State :=
  {| owner := owner s; isProvider := isProvider s;
     lastSubmissionTime := lastSubmissionTime s;
     lastDecryptionRequestTime := lastDecryptionRequestTime s;
     cooldownSeconds := cooldownSeconds s; paused := v;
     decryptionContexts := decryptionContexts s; batches := batches s;
     currentBatchId := currentBatchId s; oracle := oracle s |}.
Definition set_decryptionContexts (v : gmap Z DecryptionContext) (s : State) : State :=
  {| owner := owner s; isProvider := isProvider s;
     lastSubmissionTime := lastSubmissionTime s;
     lastDecryptionRequestTime := lastDecryptionRequestTime s;
     cooldownSeconds := cooldownSeconds s; paused := paused s;
     decryptionContexts := v; batches := batches s;
     currentBatchId := currentBatchId s; oracle := oracle s |}.
Definition set_batches (v : gmap Z Batch) (s : State) : State :=
  {| owner := owner s; isProvider := isProvider s;
     lastSubmissionTime := lastSubmissionTime s;
     lastDecryptionRequestTime := lastDecryptionRequestTime s;
     cooldownSeconds := cooldownSeconds s; paused := paused s;
     decryptionContexts := decryptionContexts s; batches := v;
     currentBatchId := currentBatchId s; oracle := oracle s |}.
Definition set_currentBatchId (v : uint256) (s : State) : State :=
  {| owner := owner s; isProvider := isProvider s;
     lastSubmissionTime := lastSubmissionTime s;
     lastDecryptionRequestTime := lastDecryptionRequestTime s;
     cooldownSeconds := cooldownSeconds s; paused := paused s;
     decryptionContexts := decryptionContexts s; batches := batches s;
     currentBatchId := v; oracle := oracle s |}.
Definition set_oracle (v : oracle_st) (s : State) : State :=
  {| owner := owner s; isProvider := isProvider s;
     lastSubmissionTime := lastSubmissionTime s;
     lastDecryptionRequestTime := lastDecryptionRequestTime s;
     cooldownSeconds := cooldownSeconds s; paused := paused s;
     decryptionContexts := decryptionContexts s; batches := batches s;
     currentBatchId := currentBatchId s; oracle := v |}.

(** ** The transaction monad

    A call reads its environment ([msg.sender], [block.timestamp]),
    threads the storage, appends to the event log, and may revert; a
    revert discards storage writes and events alike. *)

Record Env := { msg_sender : address; block_timestamp : uint256 }.

Inductive Result (A : Type) :=
| Ok (a : A) (s : State) (log : list Event.t)
| Revert (e : Error.t).
Global Arguments Ok {A} a s log.
Global Arguments Revert {A} e.

Definition Contract (A : Type) : Type := Env → State → Result A.

Definition ret {A} (a : A) : Contract A := λ _ s, Ok a s [].
Definition bind {A B} (m : Contract A) (k : A → Contract B) : Contract B :=
  λ env s,
    match m env s with
    | Ok a s1 l1 =>
        match k a env s1 with
        | Ok b s2 l2 => Ok b s2 (l1 ++ l2)
        | Revert e => Revert e
        end
    | Revert e => Revert e
    end.
Definition revert {A} (e : Error.t) : Contract A := λ _ _, Revert e.
Definition emit (ev : Event.t) : Contract unit := λ _ s, Ok tt s [ev].
Definition sload : Contract State := λ _ s, Ok s s [].
Definition sstore (f : State → State) : Contract unit := λ _ s, Ok tt (f s) [].
Definition sender : Contract address := λ env s, Ok (msg_sender env) s [].
Definition timestamp : Contract uint256 := λ env s, Ok (block_timestamp env) s [].

(** Storage after the call: a reverted call leaves it as it was. *)
Definition post_state {A} (r : Result A) (s : State) : State :=
  match r with Ok _ s' _ => s' | Revert _ => s end.
Definition succeeds {A} (r : Result A) : Prop :=
  match r with Ok _ _ _ => True | Revert _ => False end.

End Contract.

Notation "'let*' x ':=' m 'in' k" := (bind m (λ x, k))
  (at level 10, x name, m at level 100, k at level 200).
Notation "m1 ';;;' m2" := (bind m1 (λ _, m2))
  (at level 100, m2 at level 200, right associativity).

Section Functions.
Context {F : FHELib} {D : Deployment}.

(** Solidity 0.8 addition on [uint256]: overflow reverts with a panic. *)
Definition checked_add (a b : uint256) : Contract uint256 :=
  if a + b <=? uint256_max then ret (a + b) else revert Error.Panic.

(** ** Modifiers *)

Definition onlyOwner (body : Contract unit) : Contract unit :=
  let* s := sload in
  let* caller := sender in
  if negb (caller =? owner s) then revert Error.NotOwner else body.

(** The provider check runs first; the submission clock is written after
    the body (and the inner modifiers) have completed. *)
Definition onlyProvider (body : Contract unit) : Contract unit :=
  let* s := sload in
  let* caller := sender in
  if negb (isProvider_of s caller) then revert Error.NotProvider
  else
    body ;;;
    let* now := timestamp in
    sstore (λ s, set_lastSubmissionTime (<[caller := now]> (lastSubmissionTime s)) s).

Definition whenNotPaused (body : Contract unit) : Contract unit :=
  let* s := sload in
  if paused s then revert Error.Paused else body.

Definition respectCooldown (body : Contract unit) : Contract unit :=
  let* s := sload in
  let* caller := sender in
  let* now := timestamp in
  let* t1 := checked_add (lastSubmissionTime_of s caller) (cooldownSeconds s) in
  if now <? t1 then revert Error.CooldownActive
  else
    let* t2 := checked_add (lastDecryptionRequestTime_of s caller) (cooldownSeconds s) in
    if now <? t2 then revert Error.CooldownActive
    else body.

(** ** Deployment *)

(** Storage before the constructor body runs: zero everywhere except the
    two state variables with initialisers. *)
Definition State_initial (o : oracle_st) : State :=
  {| owner := 0; isProvider := ∅; lastSubmissionTime := ∅;
     lastDecryptionRequestTime := ∅; cooldownSeconds := 60; paused := false;
     decryptionContexts := ∅; batches := ∅; currentBatchId := 1;
     oracle := o |}.

Definition constructor : Contract unit :=
  let* caller := sender in
  sstore (set_owner caller) ;;;
  sstore (λ s, set_isProvider (<[owner s := true]> (isProvider s)) s) ;;;
  let* s := sload in
  emit (Event.ProviderAdded (owner s)).

(** ** Administration *)

Definition transferOwnership (newOwner : address) : Contract unit :=
  onlyOwner (
    let* s := sload in
    let previousOwner := owner s in
    sstore (set_owner newOwner) ;;;
    emit (Event.OwnershipTransferred previousOwner newOwner)).

Definition addProvider (provider : address) : Contract unit :=
  onlyOwner (
    let* s := sload in
    if negb (isProvider_of s provider) then
      sstore (λ s, set_isProvider (<[provider := true]> (isProvider s)) s) ;;;
      emit (Event.ProviderAdded provider)
    else ret tt).

Definition removeProvider (provider : address) : Contract unit :=
  onlyOwner (
    let* s := sload in
    if isProvider_of s provider then
      sstore (λ s, set_isProvider (<[provider := false]> (isProvider s)) s) ;;;
      emit (Event.ProviderRemoved provider)
    else ret tt).

Definition pause : Contract unit :=
  onlyOwner (whenNotPaused (
    sstore (set_paused true) ;;;
    let* caller := sender in
    emit (Event.PausedContract caller))).

Definition unpause : Contract unit :=
  onlyOwner (
    let* s := sload in
    if negb (paused s) then revert Error.Paused
    else
      sstore (set_paused false) ;;;
      let* caller := sender in
      emit (Event.UnpausedContract caller)).

Definition setCooldownSeconds (newCooldown : uint256) : Contract unit :=
  onlyOwner (
    if negb (0 <? newCooldown) then
      revert (Error.RequireFailed "Cooldown must be positive")
    else
      let* s := sload in
      let oldCooldown := cooldownSeconds s in
      sstore (set_cooldownSeconds newCooldown) ;;;
      emit (Event.CooldownSecondsSet oldCooldown newCooldown)).

(** ** Batches *)

Definition set_isOpen (v : bool) (b : Batch) : Batch :=
  {| id := id b; isOpen := v;
     totalAmountEncrypted := totalAmountEncrypted b;
     numApprovalsEncrypted := numApprovalsEncrypted b;
     threshold2Encrypted := threshold2Encrypted b;
     threshold4Encrypted := threshold4Encrypted b;
     limitEncrypted := limitEncrypted b |}.
Definition set_totalAmountEncrypted (v : euint32) (b : Batch) : Batch :=
  {| id := id b; isOpen := isOpen b;
     totalAmountEncrypted := v;
     numApprovalsEncrypted := numApprovalsEncrypted b;
     threshold2Encrypted := threshold2Encrypted b;
     threshold4Encrypted := threshold4Encrypted b;
     limitEncrypted := limitEncrypted b |}.
Definition set_numApprovalsEncrypted (v : euint32) (b : Batch) : Batch :=
  {| id := id b; isOpen := isOpen b;
     totalAmountEncrypted := totalAmountEncrypted b;
     numApprovalsEncrypted := v;
     threshold2Encrypted := threshold2Encrypted b;
     threshold4Encrypted := threshold4Encrypted b;
     limitEncrypted := limitEncrypted b |}.
Definition set_threshold2Encrypted (v : euint32) (b : Batch) : Batch :=
  {| id := id b; isOpen := isOpen b;
     totalAmountEncrypted := totalAmountEncrypted b;
     numApprovalsEncrypted := numApprovalsEncrypted b;
     threshold2Encrypted := v;
     threshold4Encrypted := threshold4Encrypted b;
     limitEncrypted := limitEncrypted b |}.
Definition set_threshold4Encrypted (v : euint32) (b : Batch) : Batch :=
  {| id := id b; isOpen := isOpen b;
     totalAmountEncrypted := totalAmountEncrypted b;
     numApprovalsEncrypted := numApprovalsEncrypted b;
     threshold2Encrypted := threshold2Encrypted b;
     threshold4Encrypted := v;
     limitEncrypted := limitEncrypted b |}.
Definition set_limitEncrypted (v : euint32) (b : Batch) : Batch :=
  {| id := id b; isOpen := isOpen b;
     totalAmountEncrypted := totalAmountEncrypted b;
     numApprovalsEncrypted := numApprovalsEncrypted b;
     threshold2Encrypted := threshold2Encrypted b;
     threshold4Encrypted := threshold4Encrypted b;
     limitEncrypted := v |}.

(** [batches[currentBatchId].field = ...]: one storage write to the
    current batch. *)
Definition write_batch (k : uint256) (b : Batch) (s : State) : State :=
  set_batches (<[k := b]> (batches s)) s.

Definition write_current_batch (f : Batch → Batch) : Contract unit :=
  sstore (λ s, write_batch (currentBatchId s) (f (batches_of s (currentBatchId s))) s).

Definition openBatch : Contract unit :=
  onlyOwner (whenNotPaused (
    let* s := sload in
    if isOpen (batches_of s (currentBatchId s)) then revert Error.BatchOpen
    else
      write_current_batch (set_isOpen true) ;;;
      write_current_batch (set_totalAmountEncrypted (FHE_asEuint32 0)) ;;;
      write_current_batch (set_numApprovalsEncrypted (FHE_asEuint32 0)) ;;;
      write_current_batch (set_threshold2Encrypted (FHE_asEuint32 2)) ;;;
      write_current_batch (set_threshold4Encrypted (FHE_asEuint32 4)) ;;;
      write_current_batch (set_limitEncrypted (FHE_asEuint32 10000)) ;;;
      let* s := sload in
      emit (Event.BatchOpened (currentBatchId s)))).

Definition closeBatch : Contract unit :=
  onlyOwner (whenNotPaused (
    let* s := sload in
    if negb (isOpen (batches_of s (currentBatchId s))) then revert Error.BatchClosed
    else
      write_current_batch (set_isOpen false) ;;;
      emit (Event.BatchClosed (currentBatchId s)) ;;;
      let* next := checked_add (currentBatchId s) 1 in
      sstore (set_currentBatchId next))).

Definition setPolicyParameters (threshold2 threshold4 limit : euint32) : Contract unit :=
  onlyProvider (whenNotPaused (respectCooldown (
    let* s := sload in
    if negb (isOpen (batches_of s (currentBatchId s))) then revert Error.BatchClosed
    else
      write_current_batch (set_threshold2Encrypted threshold2) ;;;
      write_current_batch (set_threshold4Encrypted threshold4) ;;;
      write_current_batch (set_limitEncrypted limit) ;;;
      let* caller := sender in
      emit (Event.PolicyParametersSubmitted (currentBatchId s) caller)))).

Definition submitTransaction (amount numApprovals : euint32) : Contract unit :=
  onlyProvider (whenNotPaused (respectCooldown (
    let* s := sload in
    if negb (isOpen (batches_of s (currentBatchId s))) then revert Error.BatchClosed
    else
      write_current_batch
        (λ b, set_totalAmountEncrypted (FHE_add (totalAmountEncrypted b) amount) b) ;;;
      write_current_batch
        (λ b, set_numApprovalsEncrypted (FHE_add (numApprovalsEncrypted b) numApprovals) b) ;;;
      let* caller := sender in
      emit (Event.TransactionSubmitted (currentBatchId s) caller)))).

(** ** Decryption protocol *)

Definition _hashCiphertexts (cts : list bytes32) : bytes32 :=
  keccak256_encode cts this.

(** The policy predicate as [requestApprovalStatus] composes it. *)
Definition requestApprovalStatus_approvalStatus (b : Batch) : ebool :=
  let amount := totalAmountEncrypted b in
  let numApprovals := numApprovalsEncrypted b in
  let threshold2 := threshold2Encrypted b in
  let threshold4 := threshold4Encrypted b in
  let limit := limitEncrypted b in
  let condition1 := FHE_le amount limit in
  let condition2 := FHE_gt amount limit in
  FHE_or (FHE_and condition1 (FHE_ge numApprovals threshold2))
         (FHE_and condition2 (FHE_ge numApprovals threshold4)).

(** The same predicate as [myCallback] recomputes it. *)
Definition myCallback_approvalStatus (batch : Batch) : ebool :=
  let amount := totalAmountEncrypted batch in
  let numApprovals := numApprovalsEncrypted batch in
  let threshold2 := threshold2Encrypted batch in
  let threshold4 := threshold4Encrypted batch in
  let limit := limitEncrypted batch in
  let condition1 := FHE_le amount limit in
  let condition2 := FHE_gt amount limit in
  FHE_or (FHE_and condition1 (FHE_ge numApprovals threshold2))
         (FHE_and condition2 (FHE_ge numApprovals threshold4)).

(** [FHE.requestDecryption]: the library call returns the identifier and
    updates the library's storage. *)
Definition requestDecryption (cts : list bytes32) (sel : Selector) : Contract uint256 :=
  let* s := sload in
  let r := FHE_requestDecryption (oracle s) cts sel in
  sstore (set_oracle r.2) ;;;
  ret r.1.

Definition requestApprovalStatus (batchId : uint256) : Contract unit :=
  whenNotPaused (respectCooldown (
    let* s := sload in
    if (currentBatchId s <=? batchId) || negb (isOpen (batches_of s batchId))
    then revert Error.BatchClosed
    else
      let approvalStatus := requestApprovalStatus_approvalStatus (batches_of s batchId) in
      let cts := [FHE_toBytes32 approvalStatus] in
      let stateHash := _hashCiphertexts cts in
      let* requestId := requestDecryption cts myCallback_selector in
      sstore (λ s,
        set_decryptionContexts
          (<[requestId := {| batchId := batchId; stateHash := stateHash;
                             processed := false |}]> (decryptionContexts s)) s) ;;;
      let* caller := sender in
      let* now := timestamp in
      sstore (λ s,
        set_lastDecryptionRequestTime
          (<[caller := now]> (lastDecryptionRequestTime s)) s) ;;;
      emit (Event.DecryptionRequested requestId batchId))).

(** The digest [myCallback] recomputes from the batch as it is now. *)
Definition myCallback_currentHash (s : State) (requestId : uint256) : bytes32 :=
  let batch := batches_of s (batchId (decryptionContexts_of s requestId)) in
  let currentCts := [FHE_toBytes32 (myCallback_approvalStatus batch)] in
  _hashCiphertexts currentCts.

Definition set_processed (v : bool) (c : DecryptionContext) : DecryptionContext :=
  {| batchId := batchId c; stateHash := stateHash c; processed := v |}.

Definition myCallback (requestId : uint256) (cleartexts proof : bytes) : Contract unit :=
  let* s := sload in
  if processed (decryptionContexts_of s requestId) then revert Error.ReplayAttempt
  else
    let currentHash := myCallback_currentHash s requestId in
    if negb (bool_decide (currentHash = stateHash (decryptionContexts_of s requestId)))
    then revert Error.StateMismatch
    else if negb (FHE_checkSignatures (oracle s) requestId cleartexts proof)
    then revert Error.DecryptionFailed
    else
      match abi_decode_bool cleartexts with
      | None => revert Error.AbiDecode
      | Some approved =>
          sstore (λ s,
            set_decryptionContexts
              (<[requestId := set_processed true (decryptionContexts_of s requestId)]>
                 (decryptionContexts s)) s) ;;;
          let* s := sload in
          emit (Event.DecryptionCompleted requestId
                  (batchId (decryptionContexts_of s requestId)) approved)
      end.

End Functions.

(** ** Calls and reachable storage *)

Module Call.
Inductive t {F : FHELib} :=
| transferOwnership (newOwner : address)
| addProvider (provider : address)
| removeProvider (provider : address)
| pause
| unpause
| setCooldownSeconds (newCooldown : uint256)
| openBatch
| closeBatch
| setPolicyParameters (threshold2 threshold4 limit : euint32)
| submitTransaction (amount numApprovals : euint32)
| requestApprovalStatus (batchId : uint256)
| myCallback (requestId : uint256) (cleartexts proof : bytes).
End Call.

Section Reachability.
Context {F : FHELib} {D : Deployment}.

Definition dispatch (c : Call.t) : Contract unit :=
  match c with
  | Call.transferOwnership newOwner => transferOwnership newOwner
  | Call.addProvider provider => addProvider provider
  | Call.removeProvider provider => removeProvider provider
  | Call.pause => pause
  | Call.unpause => unpause
  | Call.setCooldownSeconds newCooldown => setCooldownSeconds newCooldown
  | Call.openBatch => openBatch
  | Call.closeBatch => closeBatch
  | Call.setPolicyParameters t2 t4 l => setPolicyParameters t2 t4 l
  | Call.submitTransaction a n => submitTransaction a n
  | Call.requestApprovalStatus b => requestApprovalStatus b
  | Call.myCallback r c p => myCallback r c p
  end.

(** Storage right after deployment by [msg_sender env]. *)
Definition deployed (env : Env) (o : oracle_st) : State :=
  post_state (constructor env (State_initial o)) (State_initial o).

(** One successful transaction. *)
Definition step (s s' : State) : Prop :=
  ∃ env c log, dispatch c env s = Ok tt s' log.

(** Any number of successful transactions (reverted ones change nothing). *)
Inductive steps : State → State → Prop :=
| steps_refl s : steps s s
| steps_step s s' s'' : steps s s' → step s' s'' → steps s s''.

Definition reachable (s : State) : Prop :=
  ∃ env o, steps (deployed env o) s.

End Reachability.

(** ** Vocabulary of the statements *)

Section Vocabulary.
Context {F : FHELib} {D : Deployment}.

(** The two cooldown clocks of the caller have both run out. *)
Definition cooldown_satisfied (env : Env) (s : State) : Prop :=
  lastSubmissionTime_of s (msg_sender env) + cooldownSeconds s ≤ block_timestamp env
  ∧ lastDecryptionRequestTime_of s (msg_sender env) + cooldownSeconds s ≤ block_timestamp env.

(** The decision [respectCooldown] takes before running the body: the
    error it reverts with, if any.  Each sum is a checked addition. *)
Definition cooldown_check (env : Env) (s : State) : option Error.t :=
  let t1 := lastSubmissionTime_of s (msg_sender env) + cooldownSeconds s in
  let t2 := lastDecryptionRequestTime_of s (msg_sender env) + cooldownSeconds s in
  if negb (t1 <=? uint256_max) then Some Error.Panic
  else if block_timestamp env <? t1 then Some Error.CooldownActive
  else if negb (t2 <=? uint256_max) then Some Error.Panic
  else if block_timestamp env <? t2 then Some Error.CooldownActive
  else None.

(** [block.timestamp] is a [uint256]. *)
Definition valid_env (env : Env) : Prop :=
  0 ≤ block_timestamp env ≤ uint256_max.

(** The batch [openBatch] leaves at the current id. *)
Definition opened_batch (b : Batch) : Batch :=
  {| id := id b; isOpen := true;
     totalAmountEncrypted := FHE_asEuint32 0;
     numApprovalsEncrypted := FHE_asEuint32 0;
     threshold2Encrypted := FHE_asEuint32 2;
     threshold4Encrypted := FHE_asEuint32 4;
     limitEncrypted := FHE_asEuint32 10000 |}.

(** The batch after [setPolicyParameters] and after [submitTransaction]. *)
Definition policy_batch (threshold2 threshold4 limit : euint32) (b : Batch) : Batch :=
  set_limitEncrypted limit
    (set_threshold4Encrypted threshold4 (set_threshold2Encrypted threshold2 b)).

(** Both totals grow by a homomorphic addition. *)
Definition submitted_batch (amount numApprovals : euint32) (b : Batch) : Batch :=
  let b1 := set_totalAmountEncrypted (FHE_add (totalAmountEncrypted b) amount) b in
  set_numApprovalsEncrypted (FHE_add (numApprovalsEncrypted b1) numApprovals) b1.

(** The write [onlyProvider] performs after the body, and the one
    [requestApprovalStatus] performs on the request clock. *)
Definition stamp_submission (env : Env) (s : State) : State :=
  set_lastSubmissionTime
    (<[msg_sender env := block_timestamp env]> (lastSubmissionTime s)) s.

Definition stamp_request (env : Env) (s : State) : State :=
  set_lastDecryptionRequestTime
    (<[msg_sender env := block_timestamp env]> (lastDecryptionRequestTime s)) s.

(** The context [requestApprovalStatus] stores for [batchId]. *)
Definition pinned_context (s : State) (batchId : uint256) : DecryptionContext :=
  {| batchId := batchId;
     stateHash :=
       _hashCiphertexts
         [FHE_toBytes32 (requestApprovalStatus_approvalStatus (batches_of s batchId))];
     processed := false |}.

(** What the oracle answers to the request for [batchId]: the identifier
    and its own next state. *)
Definition oracle_reply (s : State) (batchId : uint256) : uint256 * oracle_st :=
  FHE_requestDecryption (oracle s)
    [FHE_toBytes32 (requestApprovalStatus_approvalStatus (batches_of s batchId))]
    myCallback_selector.

(** Storage after a successful request. *)
Definition requested (env : Env) (batchId : uint256) (s : State) : State :=
  stamp_request env
    (set_decryptionContexts
       (<[(oracle_reply s batchId).1 := pinned_context s batchId]> (decryptionContexts s))
       (set_oracle (oracle_reply s batchId).2 s)).

(** Storage after a successful callback. *)
Definition completed (requestId : uint256) (s : State) : State :=
  set_decryptionContexts
    (<[requestId := set_processed true (decryptionContexts_of s requestId)]>
       (decryptionContexts s)) s.

(** Only the batch at the current id can be open. *)
Definition open_is_current (s : State) : Prop :=
  ∀ k, isOpen (batches_of s k) = true → k = currentBatchId s.

(** Storage after a list of calls, oldest first, reverted ones included. *)
Fixpoint run_calls (calls : list (Env * Call.t)) (s : State) : State :=
  match calls with
  | [] => s
  | (env, c) :: rest => run_calls rest (post_state (dispatch c env s) s)
  end.

(** The five ciphertext handles of a batch. *)
Definition encrypted_fields (b : Batch) : euint32 * euint32 * euint32 * euint32 * euint32 :=
  (totalAmountEncrypted b, numApprovalsEncrypted b, threshold2Encrypted b,
   threshold4Encrypted b, limitEncrypted b).

(** The three rate-limited entry points; two of them are provider-only,
    and those are the calls that write the current batch's encrypted
    fields. *)
Definition rate_limited (c : Call.t) : Prop :=
  match c with
  | Call.submitTransaction _ _ | Call.setPolicyParameters _ _ _
  | Call.requestApprovalStatus _ => True
  | _ => False
  end.

Definition provider_only (c : Call.t) : Prop :=
  match c with
  | Call.submitTransaction _ _ | Call.setPolicyParameters _ _ _ => True
  | _ => False
  end.

(** The entry points behind [onlyOwner]. *)
Definition owner_only (c : Call.t) : Prop :=
  match c with
  | Call.transferOwnership _ | Call.addProvider _ | Call.removeProvider _
  | Call.pause | Call.unpause | Call.setCooldownSeconds _
  | Call.openBatch | Call.closeBatch => True
  | _ => False
  end.

(** The entry points without [whenNotPaused]: they run on a paused system
    too ([unpause] requires it). *)
Definition pause_exempt (c : Call.t) : Prop :=
  match c with
  | Call.transferOwnership _ | Call.addProvider _ | Call.removeProvider _
  | Call.unpause | Call.setCooldownSeconds _ | Call.myCallback _ _ _ => True
  | _ => False
  end.

(** Which error each entry point has a revert statement (or a checked
    operation) for. *)
Definition may_raise (c : Call.t) (e : Error.t) : Prop :=
  match e with
  | Error.NotOwner => owner_only c
  | Error.NotProvider => provider_only c
  | Error.Paused =>
      match c with
      | Call.pause | Call.unpause | Call.openBatch | Call.closeBatch
      | Call.setPolicyParameters _ _ _ | Call.submitTransaction _ _
      | Call.requestApprovalStatus _ => True
      | _ => False
      end
  | Error.CooldownActive => rate_limited c
  | Error.BatchClosed =>
      match c with
      | Call.closeBatch | Call.setPolicyParameters _ _ _
      | Call.submitTransaction _ _ | Call.requestApprovalStatus _ => True
      | _ => False
      end
  | Error.BatchOpen => match c with Call.openBatch => True | _ => False end
  | Error.InvalidThreshold | Error.InvalidLimit => False
  | Error.ReplayAttempt | Error.StateMismatch | Error.DecryptionFailed
  | Error.AbiDecode =>
      match c with Call.myCallback _ _ _ => True | _ => False end
  | Error.RequireFailed reason =>
      match c with
      | Call.setCooldownSeconds _ => reason = "Cooldown must be positive"%string
      | _ => False
      end
  | Error.Panic =>
      match c with Call.closeBatch => True | _ => rate_limited c end
  end.

(** What deployment leaves in the batch table, the context table and the
    request clock, and what every later call keeps: batches outside
    [1 .. currentBatchId] are unwritten, no batch has its [id] field
    written, no context carries a batch id or a digest, the request clock
    and the oracle are untouched. *)
Definition batch_table_shape (s : State) : Prop :=
  1 ≤ currentBatchId s
  ∧ ∀ k, id (batches_of s k) = 0
         ∧ (k < 1 ∨ currentBatchId s < k → batches_of s k = Batch_zero).

Definition no_request_recorded (o : oracle_st) (s : State) : Prop :=
  lastDecryptionRequestTime s = ∅
  ∧ oracle s = o
  ∧ ∀ r, batchId (decryptionContexts_of s r) = 0
         ∧ stateHash (decryptionContexts_of s r) = bytes32_zero.

(** Everything but the context table. *)
Definition same_outside_contexts (s s' : State) : Prop :=
  owner s' = owner s ∧ isProvider s' = isProvider s
  ∧ lastSubmissionTime s' = lastSubmissionTime s
  ∧ lastDecryptionRequestTime s' = lastDecryptionRequestTime s
  ∧ cooldownSeconds s' = cooldownSeconds s ∧ paused s' = paused s
  ∧ batches s' = batches s ∧ currentBatchId s' = currentBatchId s
  ∧ oracle s' = oracle s.

End Vocabulary.

(** ** A symbolic implementation of the library

    Handles are the expressions that produced them, digests are injective
    codes of their preimage, and the oracle numbers its requests.  It shows
    that the three law classes can be met together, and it is what the
    concrete runs below execute on. *)

Module Sym.

Inductive sym32 :=
| Uninit
| Trivial (v : Z)
| Input (nonce v : Z)
| Add (a b : sym32).

Inductive symb :=
| Le (a b : sym32)
| Gt (a b : sym32)
| Ge (a b : sym32)
| And (p q : symb)
| Or (p q : symb).

(** Injective numbering of handle expressions: a sum per constructor, a
    pair per operand list. *)
Definition shape32 : Type := (unit + Z) + (Z * Z + positive * positive).
Definition shapeb : Type :=
  (positive * positive + positive * positive + positive * positive)
  + (positive * positive + positive * positive).

Fixpoint code32 (t : sym32) : positive :=
  match t with
  | Uninit => encode (inl (inl tt) : shape32)
  | Trivial v => encode (inl (inr v) : shape32)
  | Input nonce v => encode (inr (inl (nonce, v)) : shape32)
  | Add a b => encode (inr (inr (code32 a, code32 b)) : shape32)
  end.

Fixpoint codeb (t : symb) : positive :=
  match t with
  | Le a b => encode (inl (inl (inl (code32 a, code32 b))) : shapeb)
  | Gt a b => encode (inl (inl (inr (code32 a, code32 b))) : shapeb)
  | Ge a b => encode (inl (inr (code32 a, code32 b)) : shapeb)
  | And p q => encode (inr (inl (codeb p, codeb q)) : shapeb)
  | Or p q => encode (inr (inr (codeb p, codeb q)) : shapeb)
  end.

Fixpoint size32 (t : sym32) : nat :=
  match t with
  | Add a b => S (size32 a + size32 b)
  | _ => 1
  end.

Fixpoint value32 (t : sym32) : Z :=
  match t with
  | Uninit => 0
  | Trivial v => v mod 2 ^ 32
  | Input _ v => v mod 2 ^ 32
  | Add a b => (value32 a + value32 b) mod 2 ^ 32
  end.

Fixpoint valueb (t : symb) : bool :=
  match t with
  | Le a b => value32 a <=? value32 b
  | Gt a b => value32 b <? value32 a
  | Ge a b => value32 b <=? value32 a
  | And p q => valueb p && valueb q
  | Or p q => valueb p || valueb q
  end.

#[export] Instance lib : FHELib := {|
  euint32 := sym32;
  ebool := symb;
  bytes32 := Z;
  euint32_zero := Uninit;
  bytes32_zero := 0;
  FHE_asEuint32 := Trivial;
  FHE_add := Add;
  FHE_le := Le;
  FHE_gt := Gt;
  FHE_ge := Ge;
  FHE_and := And;
  FHE_or := Or;
  FHE_toBytes32 := λ p, Z.pos (codeb p);
  keccak256_encode := λ l a, Z.pos (encode (l, a));
  oracle_st := Z;
  FHE_requestDecryption := λ o _ _, (o, o + 1);
  FHE_checkSignatures := λ _ r _ proof, word_value proof =? r;
|}.

#[export] Instance deployment : Deployment := {| this := 4096 |}.

End Sym.

(** ** Concrete runs on the symbolic library *)

Module Run.
Import Sym.

Definition alice : address := 1.
Definition bob : address := 2.
Definition at_ (who : address) (t : uint256) : Env :=
  {| msg_sender := who; block_timestamp := t |}.

(** Alice deploys at time 1000, opens batch 1 and submits 5000 units with
    2 approvals. *)
Definition s0 : State := deployed (at_ alice 1000) 0.
Definition s1 : State := post_state (openBatch (at_ alice 1000) s0) s0.
Definition s2 : State :=
  post_state (submitTransaction (Input 1 5000) (Input 2 2) (at_ alice 1000) s1) s1.

(** From [s2]: Alice pauses the contract. *)
Definition s2_paused : State := post_state (pause (at_ alice 1001) s2) s2.

(** From [s2]: Alice sets the cooldown to the largest uint256. *)
Definition s2_maxcd : State :=
  post_state (setCooldownSeconds uint256_max (at_ alice 1001) s2) s2.

(** From [s2]: Alice closes batch 1, then opens batch 2. *)
Definition s3 : State := post_state (closeBatch (at_ alice 1100) s2) s2.
Definition s4 : State := post_state (openBatch (at_ alice 1100) s3) s3.

(** From [s1]: Bob is added as a provider, submits at time 1500, and is
    removed again. *)
Definition s1_bob : State := post_state (addProvider bob (at_ alice 1000) s1) s1.
Definition s1_bob_submitted : State :=
  post_state (submitTransaction (Input 1 5000) (Input 2 2) (at_ bob 1500) s1_bob) s1_bob.
Definition s1_bob_removed : State :=
  post_state (removeProvider bob (at_ alice 1501) s1_bob_submitted) s1_bob_submitted.

(** Storage with the id counter at its last value and that batch open. *)
Definition s_last : State :=
  write_batch uint256_max (opened_batch Batch_zero)
    (set_currentBatchId uint256_max s0).

(** [s2] with a pending request 0 pinned to batch 1 as it stands there:
    what a request for batch 1 stores when it is admitted. *)
Definition s_pending : State :=
  set_decryptionContexts {[0 := pinned_context s2 1]} (set_oracle 1 s2).

(** A 32-byte cleartext word encoding [true], and a proof the symbolic
    oracle accepts for request 0. *)
Definition cleartext_true : bytes := replicate 31 x00 ++ [x01].
Definition proof0 : bytes := [x00].
Definition bad_proof : bytes := [x07].

(** From [s_pending]: the callback for request 0 completes. *)
Definition s_done : State :=
  post_state (myCallback 0 cleartext_true proof0 (at_ bob 3000) s_pending) s_pending.

(** From [s_pending]: Alice submits another transaction to batch 1. *)
Definition s_stale : State :=
  post_state (submitTransaction (Input 3 10000) (Input 4 1) (at_ alice 2000) s_pending)
    s_pending.

End Run.

(** Further runs: a change of owner, a paused system with a pending
    request, totals at the edge of the 32-bit range, and storage in which a
    batch below the current id is open, the one shape that admits a
    request. *)
Module RunMore.
Import Sym Run.

(** From [s2]: Alice hands the ownership to Bob. *)
Definition s2_bob_owner : State :=
  post_state (transferOwnership bob (at_ alice 1200) s2) s2.

(** From [s2]: Alice removes herself from the providers. *)
Definition s2_alice_removed : State :=
  post_state (removeProvider alice (at_ alice 1200) s2) s2.

(** [s_pending] on a paused system. *)
Definition s_pending_paused : State := set_paused true s_pending.

(** From [s1]: Alice submits 2^32 - 1 units with 2 approvals, and a minute
    later one more unit. *)
Definition s1_full : State :=
  post_state (submitTransaction (Input 1 (2 ^ 32 - 1)) (Input 2 2) (at_ alice 1000) s1) s1.
Definition s1_wrapped : State :=
  post_state (submitTransaction (Input 3 1) (Input 4 0) (at_ alice 1060) s1_full) s1_full.

(** From [s2], a minute later: Alice sets thresholds 3 and 5 with limit
    20000, and another minute later thresholds 1 and 1 with limit 7. *)
Definition s2_policy : State :=
  post_state (setPolicyParameters (Input 5 3) (Input 6 5) (Input 7 20000)
                (at_ alice 1060) s2) s2.
Definition s2_policy_again : State :=
  post_state (setPolicyParameters (Input 8 1) (Input 9 1) (Input 10 7)
                (at_ alice 1120) s2_policy) s2_policy.

(** [s4] with batch 1 marked open again although the current id is 2. *)
Definition s_open_below : State :=
  write_batch 1 (set_isOpen true (batches_of s4 1)) s4.
Definition s_open_below_requested : State :=
  post_state (requestApprovalStatus 1 (at_ bob 5000) s_open_below) s_open_below.

End RunMore.

(** ** The symbolic library meets the laws *)

Module SymLaws.
Import Sym.

Lemma code32_inj a b : code32 a = code32 b → a = b.
Proof.
  revert b. induction a as [|v|n v|a1 IH1 a2 IH2]; intros [|v'|n' v'|b1 b2] H;
    simpl in H; apply (inj encode) in H; try discriminate;
    inversion H; subst; try reflexivity.
  f_equal; auto.
Qed.

Lemma codeb_inj p q : codeb p = codeb q → p = q.
Proof.
  revert q. induction p as [a b|a b|a b|p1 IH1 p2 IH2|p1 IH1 p2 IH2];
    intros [a' b'|a' b'|a' b'|q1 q2|q1 q2] H;
    simpl in H; apply (inj encode) in H; try discriminate;
    inversion H as [[E1 E2]]; clear H;
    first [ apply code32_inj in E1; apply code32_inj in E2; congruence
          | f_equal; auto ].
Qed.

Lemma Add_size a b : size32 (Add a b) ≠ size32 a.
Proof. simpl. lia. Qed.

#[export] Instance semantics : FHESemantics lib.
Proof.
  refine {| dec32 := value32 : @euint32 lib → Z; decb := valueb : @ebool lib → bool |};
    reflexivity.
Defined.

#[export] Instance collision_free : FHECollisionFree lib.
Proof.
  split; simpl.
  - intros * H. by inversion H.
  - intros * H. by inversion H.
  - intros * H. by inversion H.
  - intros * H. by inversion H.
  - intros * H. by inversion H.
  - intros a b H. apply (Add_size a b). by rewrite H.
  - intros p q H. apply codeb_inj. congruence.
  - intros l a l' a' H. assert (E : (l, a) = (l', a')).
    { apply (inj encode). congruence. }
    by inversion E.
Qed.

Lemma counter_request_fresh (o : Z) : ¬ o < o.
Proof. lia. Qed.

Lemma counter_request_issued (o r : Z) : r < o + 1 ↔ r < o ∨ r = o.
Proof. lia. Qed.

#[export] Instance oracle_fresh : OracleFresh lib := {|
  issued := (λ o r, r < o) : @oracle_st lib → Z → Prop;
  request_fresh := λ o _ _, counter_request_fresh o;
  request_issued := λ o _ _ r, counter_request_issued o r;
|}.

End SymLaws.

(** ** Running the modifiers *)

Section ModifierLemmas.
Context {F : FHELib} {D : Deployment}.

Lemma mapping_get_insert {V} (zero : V) (m : gmap Z V) k v :
  mapping_get zero (<[k := v]> m) k = v.
Proof. unfold mapping_get. by rewrite lookup_insert_eq. Qed.

Lemma mapping_get_insert_ne {V} (zero : V) (m : gmap Z V) k k' v :
  k ≠ k' → mapping_get zero (<[k := v]> m) k' = mapping_get zero m k'.
Proof. intros. unfold mapping_get. by rewrite lookup_insert_ne. Qed.

Lemma onlyOwner_run body env s :
  onlyOwner body env s =
  if negb (msg_sender env =? owner s) then Revert Error.NotOwner else body env s.
Proof.
  unfold onlyOwner, bind, sload, sender, revert. simpl.
  destruct (negb _); [reflexivity|]. by destruct (body env s).
Qed.

Lemma whenNotPaused_run body env s :
  whenNotPaused body env s =
  if paused s then Revert Error.Paused else body env s.
Proof.
  unfold whenNotPaused, bind, sload, revert. simpl.
  destruct (paused s); [reflexivity|]. by destruct (body env s).
Qed.

Lemma respectCooldown_run body env s :
  respectCooldown body env s =
  match cooldown_check env s with
  | Some e => Revert e
  | None => body env s
  end.
Proof.
  unfold respectCooldown, cooldown_check, bind, sload, sender, timestamp,
    checked_add, ret, revert.
  simpl.
  destruct (_ + _ <=? uint256_max); simpl; [|reflexivity].
  destruct (block_timestamp env <? _); simpl; [reflexivity|].
  destruct (_ + _ <=? uint256_max); simpl; [|reflexivity].
  destruct (block_timestamp env <? _); simpl; [reflexivity|].
  by destruct (body env s).
Qed.

Lemma onlyProvider_run body env s :
  onlyProvider body env s =
  if negb (isProvider_of s (msg_sender env)) then Revert Error.NotProvider
  else
    match body env s with
    | Ok _ s1 l1 =>
        Ok tt (set_lastSubmissionTime
                 (<[msg_sender env := block_timestamp env]> (lastSubmissionTime s1)) s1) l1
    | Revert e => Revert e
    end.
Proof.
  unfold onlyProvider, bind, sload, sender, timestamp, sstore, revert. simpl.
  destruct (negb _); [reflexivity|].
  destruct (body env s); [|reflexivity]. by rewrite !app_nil_r.
Qed.

Lemma cooldown_check_pass env s :
  valid_env env → cooldown_satisfied env s → cooldown_check env s = None.
Proof.
  intros [_ Hmax] [H1 H2]. unfold cooldown_check. cbv zeta.
  repeat match goal with
  | |- context [negb (?a <=? ?b)] =>
      replace (a <=? b) with true by (symmetry; apply Z.leb_le; lia); cbn [negb]
  | |- context [?a <? ?b] =>
      replace (a <? b) with false by (symmetry; apply Z.ltb_ge; lia)
  end.
  reflexivity.
Qed.

Lemma cooldown_check_None env s :
  cooldown_check env s = None → cooldown_satisfied env s.
Proof.
  unfold cooldown_check, cooldown_satisfied. cbv zeta.
  repeat match goal with
  | |- context [?a <=? ?b] => destruct (Z.leb_spec a b); cbn [negb]
  | |- context [?a <? ?b] => destruct (Z.ltb_spec a b)
  end; try discriminate.
  intros _. lia.
Qed.

End ModifierLemmas.

(** ** What each entry point computes *)

Section EntryPoints.
Context {F : FHELib} {D : Deployment}.

Lemma batches_of_write k b s : batches_of (write_batch k b s) k = b.
Proof. apply mapping_get_insert. Qed.

Lemma batches_of_write_ne k k' b s :
  k ≠ k' → batches_of (write_batch k b s) k' = batches_of s k'.
Proof. apply mapping_get_insert_ne. Qed.

Lemma write_batch_twice k b b' s :
  write_batch k b' (write_batch k b s) = write_batch k b' s.
Proof. unfold write_batch, set_batches. simpl. by rewrite insert_insert_eq. Qed.

Lemma currentBatchId_write k b s :
  currentBatchId (write_batch k b s) = currentBatchId s.
Proof. reflexivity. Qed.

Ltac run_contract :=
  cbn [bind sload sstore emit sender timestamp ret revert write_current_batch app];
  rewrite ?currentBatchId_write, ?batches_of_write, ?write_batch_twice.

Lemma openBatch_run env s :
  openBatch env s =
  if negb (msg_sender env =? owner s) then Revert Error.NotOwner
  else if paused s then Revert Error.Paused
  else if isOpen (batches_of s (currentBatchId s)) then Revert Error.BatchOpen
  else Ok tt (write_batch (currentBatchId s)
                (opened_batch (batches_of s (currentBatchId s))) s)
             [Event.BatchOpened (currentBatchId s)].
Proof.
  unfold openBatch. rewrite onlyOwner_run, whenNotPaused_run.
  destruct (negb _); [reflexivity|]. destruct (paused s); [reflexivity|].
  unfold bind at 1. unfold sload at 1.
  destruct (isOpen _) eqn:Ho; [reflexivity|].
  repeat run_contract. reflexivity.
Qed.

Lemma closeBatch_run env s :
  closeBatch env s =
  if negb (msg_sender env =? owner s) then Revert Error.NotOwner
  else if paused s then Revert Error.Paused
  else if negb (isOpen (batches_of s (currentBatchId s))) then Revert Error.BatchClosed
  else if currentBatchId s + 1 <=? uint256_max then
    Ok tt (set_currentBatchId (currentBatchId s + 1)
             (write_batch (currentBatchId s)
                (set_isOpen false (batches_of s (currentBatchId s))) s))
          [Event.BatchClosed (currentBatchId s)]
  else Revert Error.Panic.
Proof.
  unfold closeBatch. rewrite onlyOwner_run, whenNotPaused_run.
  destruct (negb _); [reflexivity|]. destruct (paused s); [reflexivity|].
  unfold bind at 1. unfold sload at 1.
  destruct (negb (isOpen _)); [reflexivity|].
  repeat run_contract. unfold checked_add.
  destruct (_ <=? _); reflexivity.
Qed.

Lemma setPolicyParameters_run threshold2 threshold4 limit env s :
  setPolicyParameters threshold2 threshold4 limit env s =
  if negb (isProvider_of s (msg_sender env)) then Revert Error.NotProvider
  else if paused s then Revert Error.Paused
  else match cooldown_check env s with
  | Some e => Revert e
  | None =>
      if negb (isOpen (batches_of s (currentBatchId s))) then Revert Error.BatchClosed
      else
        Ok tt (stamp_submission env
                 (write_batch (currentBatchId s)
                    (policy_batch threshold2 threshold4 limit
                       (batches_of s (currentBatchId s))) s))
              [Event.PolicyParametersSubmitted (currentBatchId s) (msg_sender env)]
  end.
Proof.
  unfold setPolicyParameters.
  rewrite onlyProvider_run, whenNotPaused_run, respectCooldown_run.
  destruct (negb (isProvider_of _ _)); [reflexivity|].
  destruct (paused s); [reflexivity|].
  destruct (cooldown_check env s); [reflexivity|].
  unfold bind at 1. unfold sload at 1.
  destruct (negb (isOpen _)); [reflexivity|].
  repeat run_contract. reflexivity.
Qed.

Lemma submitTransaction_run amount numApprovals env s :
  submitTransaction amount numApprovals env s =
  if negb (isProvider_of s (msg_sender env)) then Revert Error.NotProvider
  else if paused s then Revert Error.Paused
  else match cooldown_check env s with
  | Some e => Revert e
  | None =>
      if negb (isOpen (batches_of s (currentBatchId s))) then Revert Error.BatchClosed
      else
        Ok tt (stamp_submission env
                 (write_batch (currentBatchId s)
                    (submitted_batch amount numApprovals
                       (batches_of s (currentBatchId s))) s))
              [Event.TransactionSubmitted (currentBatchId s) (msg_sender env)]
  end.
Proof.
  unfold submitTransaction.
  rewrite onlyProvider_run, whenNotPaused_run, respectCooldown_run.
  destruct (negb (isProvider_of _ _)); [reflexivity|].
  destruct (paused s); [reflexivity|].
  destruct (cooldown_check env s); [reflexivity|].
  unfold bind at 1. unfold sload at 1.
  destruct (negb (isOpen _)); [reflexivity|].
  repeat run_contract. reflexivity.
Qed.

Lemma requestApprovalStatus_run batchId env s :
  requestApprovalStatus batchId env s =
  if paused s then Revert Error.Paused
  else match cooldown_check env s with
  | Some e => Revert e
  | None =>
      if (currentBatchId s <=? batchId) || negb (isOpen (batches_of s batchId))
      then Revert Error.BatchClosed
      else Ok tt (requested env batchId s)
                 [Event.DecryptionRequested (oracle_reply s batchId).1 batchId]
  end.
Proof.
  unfold requestApprovalStatus.
  rewrite whenNotPaused_run, respectCooldown_run.
  destruct (paused s); [reflexivity|].
  destruct (cooldown_check env s); [reflexivity|].
  unfold bind at 1. unfold sload at 1.
  destruct (_ || _); reflexivity.
Qed.

Lemma myCallback_run requestId cleartexts proof env s :
  myCallback requestId cleartexts proof env s =
  if processed (decryptionContexts_of s requestId) then Revert Error.ReplayAttempt
  else if negb (bool_decide (myCallback_currentHash s requestId
                             = stateHash (decryptionContexts_of s requestId)))
  then Revert Error.StateMismatch
  else if negb (FHE_checkSignatures (oracle s) requestId cleartexts proof)
  then Revert Error.DecryptionFailed
  else match abi_decode_bool cleartexts with
  | None => Revert Error.AbiDecode
  | Some approved =>
      Ok tt (completed requestId s)
         [Event.DecryptionCompleted requestId
            (batchId (decryptionContexts_of s requestId)) approved]
  end.
Proof.
  unfold myCallback. unfold bind at 1. unfold sload at 1.
  destruct (processed _); [reflexivity|].
  destruct (negb (bool_decide _)); [reflexivity|].
  destruct (negb (FHE_checkSignatures _ _ _ _)); [reflexivity|].
  destruct (abi_decode_bool cleartexts); [|reflexivity].
  repeat run_contract. unfold completed, decryptionContexts_of. simpl.
  by rewrite mapping_get_insert.
Qed.

Lemma constructor_run env o :
  constructor env (State_initial o) =
  Ok tt (set_isProvider {[msg_sender env := true]}
           (set_owner (msg_sender env) (State_initial o)))
        [Event.ProviderAdded (msg_sender env)].
Proof. reflexivity. Qed.

Lemma transferOwnership_run newOwner env s :
  transferOwnership newOwner env s =
  if negb (msg_sender env =? owner s) then Revert Error.NotOwner
  else Ok tt (set_owner newOwner s) [Event.OwnershipTransferred (owner s) newOwner].
Proof.
  unfold transferOwnership. rewrite onlyOwner_run.
  destruct (negb _); reflexivity.
Qed.

Lemma addProvider_run provider env s :
  addProvider provider env s =
  if negb (msg_sender env =? owner s) then Revert Error.NotOwner
  else if negb (isProvider_of s provider) then
    Ok tt (set_isProvider (<[provider := true]> (isProvider s)) s)
       [Event.ProviderAdded provider]
  else Ok tt s [].
Proof.
  unfold addProvider. rewrite onlyOwner_run.
  destruct (negb (_ =? _)); [reflexivity|].
  unfold bind at 1. unfold sload at 1.
  destruct (negb (isProvider_of _ _)); reflexivity.
Qed.

Lemma removeProvider_run provider env s :
  removeProvider provider env s =
  if negb (msg_sender env =? owner s) then Revert Error.NotOwner
  else if isProvider_of s provider then
    Ok tt (set_isProvider (<[provider := false]> (isProvider s)) s)
       [Event.ProviderRemoved provider]
  else Ok tt s [].
Proof.
  unfold removeProvider. rewrite onlyOwner_run.
  destruct (negb (_ =? _)); [reflexivity|].
  unfold bind at 1. unfold sload at 1.
  destruct (isProvider_of _ _); reflexivity.
Qed.

Lemma pause_run env s :
  pause env s =
  if negb (msg_sender env =? owner s) then Revert Error.NotOwner
  else if paused s then Revert Error.Paused
  else Ok tt (set_paused true s) [Event.PausedContract (msg_sender env)].
Proof.
  unfold pause. rewrite onlyOwner_run, whenNotPaused_run.
  destruct (negb _); [reflexivity|]. destruct (paused s); reflexivity.
Qed.

Lemma unpause_run env s :
  unpause env s =
  if negb (msg_sender env =? owner s) then Revert Error.NotOwner
  else if negb (paused s) then Revert Error.Paused
  else Ok tt (set_paused false s) [Event.UnpausedContract (msg_sender env)].
Proof.
  unfold unpause. rewrite onlyOwner_run.
  destruct (negb (_ =? _)); [reflexivity|].
  unfold bind at 1. unfold sload at 1.
  destruct (negb (paused s)); reflexivity.
Qed.

Lemma setCooldownSeconds_run newCooldown env s :
  setCooldownSeconds newCooldown env s =
  if negb (msg_sender env =? owner s) then Revert Error.NotOwner
  else if negb (0 <? newCooldown) then
    Revert (Error.RequireFailed "Cooldown must be positive")
  else Ok tt (set_cooldownSeconds newCooldown s)
          [Event.CooldownSecondsSet (cooldownSeconds s) newCooldown].
Proof.
  unfold setCooldownSeconds. rewrite onlyOwner_run.
  destruct (negb (_ =? _)); [reflexivity|].
  destruct (negb (0 <? _)); reflexivity.
Qed.

End EntryPoints.

(** Case analysis of a successful call: every way [dispatch c env s] can
    return [Ok], with the storage it returns made explicit. *)
Ltac case_ifs H :=
  repeat match type of H with
  | (if ?c then _ else _) = _ => destruct c eqn:?; try discriminate H
  | match ?c with _ => _ end = _ => destruct c eqn:?; try discriminate H
  end.

Ltac rewrite_run H :=
  first
    [ rewrite transferOwnership_run in H | rewrite addProvider_run in H
    | rewrite removeProvider_run in H | rewrite pause_run in H
    | rewrite unpause_run in H | rewrite setCooldownSeconds_run in H
    | rewrite openBatch_run in H | rewrite closeBatch_run in H
    | rewrite setPolicyParameters_run in H | rewrite submitTransaction_run in H
    | rewrite requestApprovalStatus_run in H | rewrite myCallback_run in H ].

Ltac invert_call c H :=
  destruct c; cbn [dispatch] in H; rewrite_run H; case_ifs H;
  simplify_eq.

(** ** Batch lifecycle invariants *)

Section BatchInvariants.
Context {F : FHELib} {D : Deployment}.

Lemma deployed_eq env o :
  deployed env o =
  set_isProvider {[msg_sender env := true]}
    (set_owner (msg_sender env) (State_initial o)).
Proof. reflexivity. Qed.

Lemma open_is_current_deployed env o : open_is_current (deployed env o).
Proof. intros k H. discriminate H. Qed.

Lemma step_currentBatchId s s' : step s s' → currentBatchId s ≤ currentBatchId s'.
Proof.
  intros (env & c & log & H). invert_call c H; simpl; lia.
Qed.

Lemma step_batches_frame s s' k :
  step s s' → k ≠ currentBatchId s → batches_of s' k = batches_of s k.
Proof.
  intros (env & c & log & H) Hk. invert_call c H; try reflexivity;
    apply batches_of_write_ne; congruence.
Qed.

Lemma step_open_is_current s s' :
  step s s' → open_is_current s → open_is_current s'.
Proof.
  intros (env & c & log & H) Hinv k. invert_call c H; try apply Hinv.
  - (* openBatch *)
    destruct (decide (k = currentBatchId s)) as [->|Hne]; [reflexivity|].
    change (currentBatchId (write_batch _ _ s)) with (currentBatchId s).
    rewrite batches_of_write_ne by done. apply Hinv.
  - (* closeBatch *)
    change (isOpen (batches_of (write_batch (currentBatchId s)
              (set_isOpen false (batches_of s (currentBatchId s))) s) k) = true
            → k = currentBatchId s + 1).
    destruct (decide (k = currentBatchId s)) as [->|Hne].
    + rewrite batches_of_write. discriminate.
    + rewrite batches_of_write_ne by done. intros Ho. by apply Hinv in Ho.
  - (* setPolicyParameters *)
    change (isOpen (batches_of (write_batch (currentBatchId s)
              (policy_batch threshold2 threshold4 limit
                 (batches_of s (currentBatchId s))) s) k) = true
            → k = currentBatchId s).
    destruct (decide (k = currentBatchId s)) as [->|Hne]; [reflexivity|].
    rewrite batches_of_write_ne by done. apply Hinv.
  - (* submitTransaction *)
    change (isOpen (batches_of (write_batch (currentBatchId s)
              (submitted_batch amount numApprovals
                 (batches_of s (currentBatchId s))) s) k) = true
            → k = currentBatchId s).
    destruct (decide (k = currentBatchId s)) as [->|Hne]; [reflexivity|].
    rewrite batches_of_write_ne by done. apply Hinv.
Qed.

Lemma steps_currentBatchId s s' : steps s s' → currentBatchId s ≤ currentBatchId s'.
Proof.
  induction 1 as [|s s' s'' _ IH Hstep]; [lia|].
  apply step_currentBatchId in Hstep. lia.
Qed.

Lemma steps_open_is_current s s' :
  steps s s' → open_is_current s → open_is_current s'.
Proof.
  induction 1 as [|s s' s'' _ IH Hstep]; [done|].
  intros Hinv. eapply step_open_is_current; eauto.
Qed.

Lemma reachable_open_is_current s : reachable s → open_is_current s.
Proof.
  intros (env & o & Hsteps). eapply steps_open_is_current; [exact Hsteps|].
  apply open_is_current_deployed.
Qed.

Lemma steps_closed_frame s s' k :
  steps s s' → k < currentBatchId s → batches_of s' k = batches_of s k.
Proof.
  induction 1 as [|s s' s'' Hsteps IH Hstep]; [done|].
  intros Hk. rewrite <- IH by done. apply step_batches_frame; [done|].
  apply steps_currentBatchId in Hsteps. lia.
Qed.

End BatchInvariants.

(** ** Request for approval status *)

Section RequestApproval.
Context {F : FHELib} {D : Deployment}.

Lemma reachable_step env c s s' log :
  reachable s → dispatch c env s = Ok tt s' log → reachable s'.
Proof.
  intros (env0 & o & Hs) Hc. exists env0, o.
  eapply steps_step; [exact Hs|]. by exists env, c, log.
Qed.

(** The guard of [requestApprovalStatus], read off its code: a request
    goes through exactly for an open batch strictly below the current id. *)
Lemma requestApprovalStatus_succeeds_iff batchId env s :
  succeeds (requestApprovalStatus batchId env s)
  ↔ paused s = false ∧ cooldown_check env s = None
    ∧ batchId < currentBatchId s ∧ isOpen (batches_of s batchId) = true.
Proof.
  rewrite requestApprovalStatus_run.
  destruct (paused s); [simpl; split; [tauto|intros [? _]; discriminate]|].
  destruct (cooldown_check env s);
    [simpl; split; [tauto|intros (_ & ? & _); discriminate]|].
  destruct (Z.leb_spec (currentBatchId s) batchId);
    destruct (isOpen (batches_of s batchId)); simpl; split;
    try tauto; intros (_ & _ & ? & ?); try lia; discriminate.
Qed.

(** No storage reachable from deployment admits a request: an open batch
    sits at the current id, which the guard excludes. *)
Lemma requestApprovalStatus_never_succeeds batchId env s :
  reachable s → ¬ succeeds (requestApprovalStatus batchId env s).
Proof.
  intros Hr Hs. apply requestApprovalStatus_succeeds_iff in Hs
    as (_ & _ & Hlt & Ho).
  apply reachable_open_is_current in Hr. apply Hr in Ho. lia.
Qed.

(** A batch for which a request was admitted lies below the current id: no
    later [submitTransaction] or [setPolicyParameters] writes it. *)
Lemma requested_batch_is_frozen batchId env s s1 log s2 :
  requestApprovalStatus batchId env s = Ok tt s1 log → steps s1 s2 →
  batches_of s2 batchId = batches_of s batchId.
Proof.
  intros Hreq Hsteps.
  assert (Hs : succeeds (requestApprovalStatus batchId env s)) by (by rewrite Hreq).
  apply requestApprovalStatus_succeeds_iff in Hs as (_ & _ & Hlt & _).
  rewrite requestApprovalStatus_run in Hreq. case_ifs Hreq.
  inversion Hreq; subst; clear Hreq.
  by rewrite (steps_closed_frame _ _ batchId Hsteps).
Qed.

(** C1 (the code departs from the claim): a request against the batch that
    is open, i.e. the one at the current id, made while the system is not
    paused and both cooldown clocks of the caller are satisfied, does not
    succeed; it reverts with [BatchClosed], because the guard rejects every
    id at or above the current one. *)
Theorem C1_request_against_open_batch_reverts env s :
  valid_env env → paused s = false → cooldown_satisfied env s →
  isOpen (batches_of s (currentBatchId s)) = true →
  requestApprovalStatus (currentBatchId s) env s = Revert Error.BatchClosed.
Proof.
  intros Henv Hp Hc Ho. rewrite requestApprovalStatus_run, Hp.
  rewrite (cooldown_check_pass env s Henv Hc).
  by rewrite Z.leb_refl.
Qed.

End RequestApproval.

(** ** The policy predicate *)

Section PolicyPredicate.
Context {F : FHELib} {D : Deployment} {S : FHESemantics F}.

(** C2: under every plaintext interpretation of the handles, the encrypted
    boolean that [requestApprovalStatus] pins and forwards, and that
    [myCallback] recomputes by the same expression, decrypts to
    (amount ≤ limit ∧ approvals ≥ thresholdLow) ∨
    (amount > limit ∧ approvals ≥ thresholdHigh); the handle is the [or] of
    both [and] handles for every batch, so both disjuncts are built on
    every call. *)
Theorem C2_policy_predicate_decrypts (b : Batch) :
  myCallback_approvalStatus b = requestApprovalStatus_approvalStatus b
  ∧ requestApprovalStatus_approvalStatus b =
      FHE_or
        (FHE_and (FHE_le (totalAmountEncrypted b) (limitEncrypted b))
                 (FHE_ge (numApprovalsEncrypted b) (threshold2Encrypted b)))
        (FHE_and (FHE_gt (totalAmountEncrypted b) (limitEncrypted b))
                 (FHE_ge (numApprovalsEncrypted b) (threshold4Encrypted b)))
  ∧ (decb (requestApprovalStatus_approvalStatus b) = true
     ↔ (dec32 (totalAmountEncrypted b) ≤ dec32 (limitEncrypted b)
        ∧ dec32 (numApprovalsEncrypted b) >= dec32 (threshold2Encrypted b))
       ∨ (dec32 (totalAmountEncrypted b) > dec32 (limitEncrypted b)
          ∧ dec32 (numApprovalsEncrypted b) >= dec32 (threshold4Encrypted b)))
  ∧ (∀ env batchId s s' log,
       requestApprovalStatus batchId env s = Ok tt s' log →
       ∃ requestId,
         log = [Event.DecryptionRequested requestId batchId]
         ∧ decryptionContexts_of s' requestId =
             {| batchId := batchId;
                stateHash :=
                  _hashCiphertexts
                    [FHE_toBytes32
                       (requestApprovalStatus_approvalStatus (batches_of s batchId))];
                processed := false |})
  ∧ (∀ s requestId,
       myCallback_currentHash s requestId =
       _hashCiphertexts
         [FHE_toBytes32
            (myCallback_approvalStatus
               (batches_of s (batchId (decryptionContexts_of s requestId))))]).
Proof.
  split; [reflexivity|]. split; [reflexivity|]. split; [|split].
  - unfold requestApprovalStatus_approvalStatus. cbv zeta.
    rewrite dec_or, !dec_and, dec_le, dec_gt, !dec_ge.
    rewrite orb_true_iff, !andb_true_iff, !Z.leb_le, Z.ltb_lt. lia.
  - intros env batchId s s' log H. rewrite requestApprovalStatus_run in H.
    case_ifs H. inversion H; subst; clear H.
    exists (oracle_reply s batchId).1. split; [reflexivity|].
    unfold requested, decryptionContexts_of. simpl.
    by rewrite mapping_get_insert.
  - reflexivity.
Qed.

End PolicyPredicate.

(** ** Batch lifecycle *)

Section Lifecycle.
Context {F : FHELib} {D : Deployment}.

(** C8: in every storage reachable from deployment at most one batch id is
    open, and an open batch sits at the current id; once [closeBatch] has
    closed a batch, no later sequence of calls changes its stored record,
    and the same holds for every id below the current one. *)
Theorem C8_one_open_batch_closed_immutable (s : State) :
  reachable s →
  (∀ j k, isOpen (batches_of s j) = true → isOpen (batches_of s k) = true → j = k)
  ∧ (∀ k, isOpen (batches_of s k) = true → k = currentBatchId s)
  ∧ (∀ env s1 log s2,
       closeBatch env s = Ok tt s1 log → steps s1 s2 →
       isOpen (batches_of s1 (currentBatchId s)) = false
       ∧ batches_of s2 (currentBatchId s) = batches_of s1 (currentBatchId s))
  ∧ (∀ k s', k < currentBatchId s → steps s s' →
       isOpen (batches_of s k) = false
       ∧ batches_of s' k = batches_of s k).
Proof.
  intros Hr. pose proof (reachable_open_is_current s Hr) as Hinv.
  split; [|split; [exact Hinv|split]].
  - intros j k Hj Hk. apply Hinv in Hj, Hk. congruence.
  - intros env s1 log s2 Hc Hsteps. rewrite closeBatch_run in Hc. case_ifs Hc.
    inversion Hc; subst; clear Hc. split.
    + change (isOpen (batches_of (write_batch (currentBatchId s)
                (set_isOpen false (batches_of s (currentBatchId s))) s)
                (currentBatchId s)) = false).
      by rewrite batches_of_write.
    + apply steps_closed_frame; [exact Hsteps|]. simpl. lia.
  - intros k s' Hk Hsteps. split.
    + destruct (isOpen (batches_of s k)) eqn:Ho; [|reflexivity].
      apply Hinv in Ho. lia.
    + by apply steps_closed_frame.
Qed.

(** C9 (as amended): when the owner calls while the system is not paused,
    [openBatch] reverts with [BatchOpen] if the current id is open, and
    otherwise marks it open, sets its encrypted fields to the encryptions
    of 0, 0, 2, 4 and 10000 and emits [BatchOpened]; [closeBatch] reverts
    with [BatchClosed] if the current batch is not open, and otherwise
    (the counter being below the uint256 maximum) closes it, emits
    [BatchClosed] and advances [currentBatchId] by one, so the next
    [openBatch] writes a different id; no call ever lowers the counter. *)
Theorem C9_open_close_lifecycle env (s : State) :
  msg_sender env = owner s → paused s = false →
  (isOpen (batches_of s (currentBatchId s)) = true →
     openBatch env s = Revert Error.BatchOpen)
  ∧ (isOpen (batches_of s (currentBatchId s)) = false →
     ∃ s',
       openBatch env s = Ok tt s' [Event.BatchOpened (currentBatchId s)]
       ∧ currentBatchId s' = currentBatchId s
       ∧ batches_of s' (currentBatchId s) =
           {| id := id (batches_of s (currentBatchId s)); isOpen := true;
              totalAmountEncrypted := FHE_asEuint32 0;
              numApprovalsEncrypted := FHE_asEuint32 0;
              threshold2Encrypted := FHE_asEuint32 2;
              threshold4Encrypted := FHE_asEuint32 4;
              limitEncrypted := FHE_asEuint32 10000 |}
       ∧ ∀ k, k ≠ currentBatchId s → batches_of s' k = batches_of s k)
  ∧ (isOpen (batches_of s (currentBatchId s)) = false →
     closeBatch env s = Revert Error.BatchClosed)
  ∧ (isOpen (batches_of s (currentBatchId s)) = true →
     currentBatchId s < uint256_max →
     ∃ s',
       closeBatch env s = Ok tt s' [Event.BatchClosed (currentBatchId s)]
       ∧ currentBatchId s' = currentBatchId s + 1
       ∧ batches_of s' (currentBatchId s) =
           set_isOpen false (batches_of s (currentBatchId s))
       ∧ (∀ k, k ≠ currentBatchId s → batches_of s' k = batches_of s k)
       ∧ (∀ env' s'' log, openBatch env' s' = Ok tt s'' log →
            log = [Event.BatchOpened (currentBatchId s + 1)]
            ∧ batches_of s'' (currentBatchId s) = batches_of s' (currentBatchId s)))
  ∧ (∀ s', steps s s' → currentBatchId s ≤ currentBatchId s').
Proof.
  intros Ho Hp.
  assert (Hown : negb (msg_sender env =? owner s) = false).
  { rewrite Ho, Z.eqb_refl. reflexivity. }
  repeat split.
  - intros Hopen. by rewrite openBatch_run, Hown, Hp, Hopen.
  - intros Hopen. eexists. rewrite openBatch_run, Hown, Hp, Hopen.
    split; [reflexivity|]. split; [reflexivity|]. split.
    + by rewrite batches_of_write.
    + intros k Hk. by rewrite batches_of_write_ne.
  - intros Hopen. by rewrite closeBatch_run, Hown, Hp, Hopen.
  - intros Hopen Hmax. eexists. rewrite closeBatch_run, Hown, Hp, Hopen.
    cbn [negb].
    replace (currentBatchId s + 1 <=? uint256_max) with true
      by (symmetry; apply Z.leb_le; lia).
    split; [reflexivity|]. split; [reflexivity|].
    set (s1 := write_batch _ _ s).
    change (batches_of s1 (currentBatchId s) =
              set_isOpen false (batches_of s (currentBatchId s))
            ∧ (∀ k, k ≠ currentBatchId s → batches_of s1 k = batches_of s k)
            ∧ (∀ env' s'' log,
                 openBatch env' (set_currentBatchId (currentBatchId s + 1) s1)
                 = Ok tt s'' log →
                 log = [Event.BatchOpened (currentBatchId s + 1)]
                 ∧ batches_of s'' (currentBatchId s) = batches_of s1 (currentBatchId s))).
    split; [apply batches_of_write|].
    split; [intros k Hk; by apply batches_of_write_ne|].
    intros env' s'' log H. rewrite openBatch_run in H. case_ifs H.
    inversion H; subst; clear H. split; [reflexivity|].
    rewrite batches_of_write_ne by (simpl; lia). reflexivity.
  - apply steps_currentBatchId.
Qed.

(** C10: right after deployment the deployer is the owner and is registered
    as a provider, the constructor having emitted [ProviderAdded] for it;
    its calls to [submitTransaction] and [setPolicyParameters] are never
    turned away as [NotProvider], and once it has opened a batch they go
    through as soon as the initial 60-second cooldown has elapsed, without
    any call to [addProvider]. *)
Theorem C10_deployer_is_owner_and_provider env o :
  constructor env (State_initial o) =
    Ok tt (deployed env o) [Event.ProviderAdded (msg_sender env)]
  ∧ owner (deployed env o) = msg_sender env
  ∧ isProvider_of (deployed env o) (msg_sender env) = true
  ∧ (∀ t amount numApprovals threshold2 threshold4 limit,
       let env' := {| msg_sender := msg_sender env; block_timestamp := t |} in
       submitTransaction amount numApprovals env' (deployed env o)
         ≠ Revert Error.NotProvider
       ∧ setPolicyParameters threshold2 threshold4 limit env' (deployed env o)
         ≠ Revert Error.NotProvider)
  ∧ (∀ t1 t2 amount numApprovals threshold2 threshold4 limit,
       60 ≤ t2 ≤ uint256_max →
       let env1 := {| msg_sender := msg_sender env; block_timestamp := t1 |} in
       let env2 := {| msg_sender := msg_sender env; block_timestamp := t2 |} in
       ∃ s1 log1,
         openBatch env1 (deployed env o) = Ok tt s1 log1
         ∧ succeeds (submitTransaction amount numApprovals env2 s1)
         ∧ succeeds (setPolicyParameters threshold2 threshold4 limit env2 s1)).
Proof.
  assert (Hprov : isProvider_of (deployed env o) (msg_sender env) = true).
  { rewrite deployed_eq. unfold isProvider_of. simpl. apply mapping_get_insert. }
  split; [reflexivity|]. split; [reflexivity|]. split; [exact Hprov|]. split.
  - intros t a n t2 t4 l env'.
    rewrite submitTransaction_run, setPolicyParameters_run.
    change (msg_sender env') with (msg_sender env). rewrite Hprov. cbn [negb].
    change (paused (deployed env o)) with false. cbv iota.
    split; destruct (cooldown_check env' (deployed env o)) as [e|] eqn:Hc.
    all: try (destruct (negb (isOpen _)); discriminate).
    all: unfold cooldown_check in Hc; cbv zeta in Hc; case_ifs Hc;
         inversion Hc; discriminate.
  - intros t1 t2 a n th2 th4 l Ht env1 env2.
    eexists _, _. split.
    + rewrite openBatch_run. simpl. rewrite Z.eqb_refl. reflexivity.
    + set (s1 := write_batch _ _ _).
      assert (Hc : cooldown_check env2 s1 = None).
      { apply cooldown_check_pass; [split; simpl; lia|].
        split; simpl; unfold lastSubmissionTime_of, lastDecryptionRequestTime_of,
          mapping_get; simpl; rewrite lookup_empty; simpl; lia. }
      assert (Hp : isProvider_of s1 (msg_sender env2) = true) by exact Hprov.
      assert (Ho : isOpen (batches_of s1 (currentBatchId s1)) = true).
      { unfold s1. by rewrite currentBatchId_write, batches_of_write. }
      rewrite submitTransaction_run, setPolicyParameters_run, Hp, Hc, Ho.
      by split.
Qed.

End Lifecycle.

(** ** Sequences of calls *)

Section Calls.
Context {F : FHELib} {D : Deployment}.

Lemma steps_trans s s' s'' : steps s s' → steps s' s'' → steps s s''.
Proof.
  intros H1 H2. induction H2 as [|s' s2 s3 _ IH Hstep]; [done|].
  eapply steps_step; [exact (IH H1)|done].
Qed.

Lemma steps_post_state env c s : steps s (post_state (dispatch c env s) s).
Proof.
  destruct (dispatch c env s) as [[] s' log|e] eqn:H; simpl; [|apply steps_refl].
  eapply steps_step; [apply steps_refl|]. by exists env, c, log.
Qed.

Lemma run_calls_steps calls s : steps s (run_calls calls s).
Proof.
  revert s. induction calls as [|[env c] rest IH]; intros s; simpl.
  - apply steps_refl.
  - eapply steps_trans; [apply steps_post_state|apply IH].
Qed.

End Calls.

(** ** Replay protection *)

Section Replay.
Context {F : FHELib} {D : Deployment} {O : OracleFresh F}.

Lemma decryptionContexts_of_requested env b s r :
  r ≠ (oracle_reply s b).1 →
  decryptionContexts_of (requested env b s) r = decryptionContexts_of s r.
Proof.
  intros Hr. unfold requested, decryptionContexts_of. simpl.
  by rewrite mapping_get_insert_ne.
Qed.

Lemma decryptionContexts_of_completed r' s r :
  decryptionContexts_of (completed r' s) r =
  if decide (r' = r) then set_processed true (decryptionContexts_of s r)
  else decryptionContexts_of s r.
Proof.
  unfold completed, decryptionContexts_of. simpl. case_decide as Hr.
  - subst. by rewrite mapping_get_insert.
  - by rewrite mapping_get_insert_ne.
Qed.

Lemma step_issued s s' r :
  step s s' → issued (oracle s) r → issued (oracle s') r.
Proof.
  intros (env & c & log & H) Hi. invert_call c H; try exact Hi.
  simpl. apply request_issued. by left.
Qed.

Lemma step_processed s s' r :
  step s s' → issued (oracle s) r →
  processed (decryptionContexts_of s r) = true →
  processed (decryptionContexts_of s' r) = true.
Proof.
  intros (env & c & log & H) Hi Hp. invert_call c H; try exact Hp.
  - rewrite decryptionContexts_of_requested; [exact Hp|].
    intros ->. by apply request_fresh in Hi.
  - rewrite decryptionContexts_of_completed.
    destruct (decide (requestId = r)); [reflexivity|exact Hp].
Qed.

Lemma steps_processed s s' r :
  steps s s' → issued (oracle s) r →
  processed (decryptionContexts_of s r) = true →
  issued (oracle s') r ∧ processed (decryptionContexts_of s' r) = true.
Proof.
  induction 1 as [|s s' s'' _ IH Hstep]; [done|].
  intros Hi Hp. destruct (IH Hi Hp) as [Hi' Hp']. split.
  - by eapply step_issued.
  - by eapply step_processed.
Qed.

(** C3: once a request's context is processed, every [myCallback] for it
    reverts with [ReplayAttempt], whatever cleartexts and proof it carries;
    and, the identifier being one the oracle has issued, this stays so
    after any list of further calls (repeated callbacks among them): the
    flag is never cleared again. *)
Theorem C3_processed_context_rejects_replay (s : State) (requestId : uint256) :
  processed (decryptionContexts_of s requestId) = true →
  (∀ env cleartexts proof,
     myCallback requestId cleartexts proof env s = Revert Error.ReplayAttempt)
  ∧ (issued (oracle s) requestId →
     ∀ calls,
       processed (decryptionContexts_of (run_calls calls s) requestId) = true
       ∧ ∀ env cleartexts proof,
           myCallback requestId cleartexts proof env (run_calls calls s)
           = Revert Error.ReplayAttempt).
Proof.
  intros Hp. split.
  - intros env ct pf. by rewrite myCallback_run, Hp.
  - intros Hi calls.
    destruct (steps_processed s (run_calls calls s) requestId
                (run_calls_steps calls s) Hi Hp) as [_ Hp'].
    split; [exact Hp'|]. intros env ct pf. by rewrite myCallback_run, Hp'.
Qed.

End Replay.

(** ** Staleness *)

Section Staleness.
Context {F : FHELib} {D : Deployment} {C : FHECollisionFree F}.

Lemma approvalStatus_inj b b' :
  myCallback_approvalStatus b = requestApprovalStatus_approvalStatus b' →
  encrypted_fields b = encrypted_fields b'.
Proof.
  unfold myCallback_approvalStatus, requestApprovalStatus_approvalStatus,
    encrypted_fields. cbv zeta. intros H.
  apply FHE_or_inj in H as [H1 H2].
  apply FHE_and_inj in H1 as [H1 H3]. apply FHE_and_inj in H2 as [_ H4].
  apply FHE_le_inj in H1 as [-> ->]. apply FHE_ge_inj in H3 as [-> ->].
  apply FHE_ge_inj in H4 as [_ ->]. reflexivity.
Qed.

Lemma currentHash_pinned_inj s' s r b :
  batchId (decryptionContexts_of s' r) = b →
  myCallback_currentHash s' r = stateHash (pinned_context s b) →
  encrypted_fields (batches_of s' b) = encrypted_fields (batches_of s b).
Proof.
  intros Hb H. unfold myCallback_currentHash, pinned_context, _hashCiphertexts in H.
  simpl in H. apply keccak256_encode_inj in H as [H _].
  injection H as H. apply FHE_toBytes32_inj in H.
  rewrite Hb in H. by apply approvalStatus_inj.
Qed.

(** Whatever happened in between: a callback that finds its batch's
    handles different from the ones its context was pinned to reverts with
    [StateMismatch]. *)
Lemma pending_callback_after_change s0 s r env cleartexts proof :
  decryptionContexts_of s r
    = pinned_context s0 (batchId (decryptionContexts_of s r)) →
  encrypted_fields (batches_of s (batchId (decryptionContexts_of s r)))
    ≠ encrypted_fields (batches_of s0 (batchId (decryptionContexts_of s r))) →
  myCallback r cleartexts proof env s = Revert Error.StateMismatch.
Proof.
  intros Hpin Hmut. rewrite myCallback_run.
  replace (processed (decryptionContexts_of s r)) with false by (by rewrite Hpin).
  rewrite bool_decide_eq_false_2; [reflexivity|].
  intros E. apply Hmut. eapply currentHash_pinned_inj; [reflexivity|].
  rewrite E, Hpin. reflexivity.
Qed.

(** A submission to an open batch always changes its encrypted totals. *)
Lemma submitTransaction_mutates amount numApprovals env s s' log :
  submitTransaction amount numApprovals env s = Ok tt s' log →
  encrypted_fields (batches_of s' (currentBatchId s))
  ≠ encrypted_fields (batches_of s (currentBatchId s)).
Proof.
  intros H. rewrite submitTransaction_run in H. case_ifs H.
  inversion H; subst; clear H.
  change (encrypted_fields
            (batches_of (write_batch (currentBatchId s)
               (submitted_batch amount numApprovals
                  (batches_of s (currentBatchId s))) s) (currentBatchId s))
          ≠ encrypted_fields (batches_of s (currentBatchId s))).
  rewrite batches_of_write. unfold encrypted_fields. simpl. intros E.
  injection E as E _. by apply FHE_add_fresh in E.
Qed.

(** C4: a pending request is pinned to the digest of the predicate over its
    batch as it stood; if a successful [submitTransaction] or
    [setPolicyParameters] then changes that batch's encrypted fields, the
    digest [myCallback] recomputes differs from the pinned one and the
    callback reverts with [StateMismatch] for every cleartext and proof,
    valid proofs included, leaving the context unprocessed. *)
Theorem C4_update_makes_pending_callback_stale env c (s s' : State) log requestId :
  decryptionContexts_of s requestId
    = pinned_context s (batchId (decryptionContexts_of s requestId)) →
  provider_only c →
  dispatch c env s = Ok tt s' log →
  encrypted_fields (batches_of s' (batchId (decryptionContexts_of s requestId)))
    ≠ encrypted_fields (batches_of s (batchId (decryptionContexts_of s requestId))) →
  ∀ env' cleartexts proof,
    myCallback_currentHash s' requestId
      ≠ stateHash (decryptionContexts_of s' requestId)
    ∧ myCallback requestId cleartexts proof env' s' = Revert Error.StateMismatch
    ∧ (FHE_checkSignatures (oracle s') requestId cleartexts proof = true →
       myCallback requestId cleartexts proof env' s' = Revert Error.StateMismatch)
    ∧ processed
        (decryptionContexts_of
           (post_state (myCallback requestId cleartexts proof env' s') s')
           requestId) = false.
Proof.
  intros Hpin Hc Hrun Hmut env' ct pf.
  assert (Hctx : decryptionContexts_of s' requestId = decryptionContexts_of s requestId).
  { destruct c; try contradiction; cbn [dispatch] in Hrun; rewrite_run Hrun;
      case_ifs Hrun; inversion Hrun; reflexivity. }
  assert (Hne : myCallback_currentHash s' requestId
                ≠ stateHash (decryptionContexts_of s' requestId)).
  { rewrite Hctx, Hpin. intros E. apply Hmut.
    eapply currentHash_pinned_inj; [|exact E]. by rewrite Hctx. }
  assert (Hproc : processed (decryptionContexts_of s' requestId) = false).
  { rewrite Hctx, Hpin. reflexivity. }
  assert (Hrev : myCallback requestId ct pf env' s' = Revert Error.StateMismatch).
  { rewrite myCallback_run, Hproc. by rewrite bool_decide_eq_false_2. }
  split; [exact Hne|]. split; [exact Hrev|]. split; [done|].
  rewrite Hrev. exact Hproc.
Qed.

End Staleness.

(** ** Callback checks *)

Section Callback.
Context {F : FHELib} {D : Deployment}.

(** C5: for a context that is unprocessed and whose pinned digest matches
    the recomputed one, a failed proof check makes [myCallback] revert with
    [DecryptionFailed] and the context stays unprocessed; a call that
    completes has passed all three checks (replay, digest, proof), has set
    [processed] and has emitted [DecryptionCompleted] with the request id,
    the context's batch id and the boolean decoded from the cleartexts; and
    with the three checks passed and a well-formed cleartext it does
    complete. *)
Theorem C5_callback_checks_and_completion env (s : State) requestId cleartexts proof :
  (processed (decryptionContexts_of s requestId) = false →
   myCallback_currentHash s requestId = stateHash (decryptionContexts_of s requestId) →
   FHE_checkSignatures (oracle s) requestId cleartexts proof = false →
   myCallback requestId cleartexts proof env s = Revert Error.DecryptionFailed
   ∧ post_state (myCallback requestId cleartexts proof env s) s = s
   ∧ processed
       (decryptionContexts_of
          (post_state (myCallback requestId cleartexts proof env s) s) requestId)
     = false)
  ∧ (∀ s' log,
       myCallback requestId cleartexts proof env s = Ok tt s' log →
       processed (decryptionContexts_of s requestId) = false
       ∧ myCallback_currentHash s requestId
         = stateHash (decryptionContexts_of s requestId)
       ∧ FHE_checkSignatures (oracle s) requestId cleartexts proof = true
       ∧ ∃ approved,
           abi_decode_bool cleartexts = Some approved
           ∧ log = [Event.DecryptionCompleted requestId
                      (batchId (decryptionContexts_of s requestId)) approved]
           ∧ decryptionContexts_of s' requestId
             = set_processed true (decryptionContexts_of s requestId)
           ∧ processed (decryptionContexts_of s' requestId) = true)
  ∧ (processed (decryptionContexts_of s requestId) = false →
     myCallback_currentHash s requestId = stateHash (decryptionContexts_of s requestId) →
     FHE_checkSignatures (oracle s) requestId cleartexts proof = true →
     ∀ approved, abi_decode_bool cleartexts = Some approved →
       myCallback requestId cleartexts proof env s
       = Ok tt (completed requestId s)
           [Event.DecryptionCompleted requestId
              (batchId (decryptionContexts_of s requestId)) approved]).
Proof.
  split; [|split].
  - intros Hp Hh Hc. rewrite myCallback_run, Hp, Hh, Hc.
    rewrite bool_decide_eq_true_2 by reflexivity. simpl. done.
  - intros s' log H. rewrite myCallback_run in H. case_ifs H.
    inversion H; subst; clear H.
    repeat match goal with
    | H : negb _ = false |- _ => apply negb_false_iff in H
    end.
    split; [reflexivity|].
    split; [by match goal with H : bool_decide _ = true |- _ =>
                 apply bool_decide_eq_true in H end|].
    split; [done|]. eexists. split; [reflexivity|]. split; [reflexivity|].
    rewrite decryptionContexts_of_completed.
    destruct (decide (requestId = requestId)); [by split|done].
  - intros Hp Hh Hc approved Hd. rewrite myCallback_run, Hp, Hh, Hc, Hd.
    by rewrite bool_decide_eq_true_2.
Qed.

End Callback.

(** ** Rate limiting *)

Section RateLimit.
Context {F : FHELib} {D : Deployment}.

(** C6 (as amended): for [submitTransaction], [setPolicyParameters] and
    [requestApprovalStatus], once the checks that precede the cooldown have
    passed (the system is not paused, and for the two provider calls the
    caller is a provider) and the two sums fit in a uint256, the call
    reverts with [CooldownActive] whenever the current time is strictly
    before the caller's last-submission time plus the cooldown, or strictly
    before its last-decryption-request time plus the cooldown; and such a
    call succeeds only when both sums are at or before the current time. *)
Theorem C6_cooldown_gates_rate_limited_calls env c (s : State) :
  rate_limited c →
  (paused s = false →
   (provider_only c → isProvider_of s (msg_sender env) = true) →
   lastSubmissionTime_of s (msg_sender env) + cooldownSeconds s ≤ uint256_max →
   lastDecryptionRequestTime_of s (msg_sender env) + cooldownSeconds s ≤ uint256_max →
   block_timestamp env < lastSubmissionTime_of s (msg_sender env) + cooldownSeconds s
   ∨ block_timestamp env
     < lastDecryptionRequestTime_of s (msg_sender env) + cooldownSeconds s →
   dispatch c env s = Revert Error.CooldownActive)
  ∧ (succeeds (dispatch c env s) →
     lastSubmissionTime_of s (msg_sender env) + cooldownSeconds s ≤ block_timestamp env
     ∧ lastDecryptionRequestTime_of s (msg_sender env) + cooldownSeconds s
       ≤ block_timestamp env).
Proof.
  intros Hc. split.
  - intros Hp Hprov H1 H2 Hlt.
    assert (Hcheck : cooldown_check env s = Some Error.CooldownActive).
    { unfold cooldown_check. cbv zeta.
      replace (_ + _ <=? uint256_max) with true by (symmetry; apply Z.leb_le; lia).
      cbn [negb].
      destruct (Z.ltb_spec (block_timestamp env)
                  (lastSubmissionTime_of s (msg_sender env) + cooldownSeconds s));
        [reflexivity|].
      replace (_ + _ <=? uint256_max) with true by (symmetry; apply Z.leb_le; lia).
      cbn [negb].
      destruct (Z.ltb_spec (block_timestamp env)
                  (lastDecryptionRequestTime_of s (msg_sender env) + cooldownSeconds s));
        [reflexivity|lia]. }
    destruct c; try contradiction; cbn [dispatch].
    + by rewrite setPolicyParameters_run, (Hprov I), Hp, Hcheck.
    + by rewrite submitTransaction_run, (Hprov I), Hp, Hcheck.
    + by rewrite requestApprovalStatus_run, Hp, Hcheck.
  - intros Hs. apply cooldown_check_None.
    destruct c; try contradiction; cbn [dispatch] in Hs.
    + rewrite setPolicyParameters_run in Hs.
      destruct (negb (isProvider_of _ _)); [done|]. destruct (paused s); [done|].
      by destruct (cooldown_check env s).
    + rewrite submitTransaction_run in Hs.
      destruct (negb (isProvider_of _ _)); [done|]. destruct (paused s); [done|].
      by destruct (cooldown_check env s).
    + rewrite requestApprovalStatus_run in Hs.
      destruct (paused s); [done|]. by destruct (cooldown_check env s).
Qed.

(** C7: a successful [submitTransaction] or [setPolicyParameters] writes the
    caller's entry of [lastSubmissionTime] and nothing else in the two
    timestamp mappings; a successful [requestApprovalStatus] writes the
    caller's entry of [lastDecryptionRequestTime] and nothing else in them;
    every other successful call, and every call that reverts, leaves both
    mappings as they were. *)
Theorem C7_timestamp_frame env c (s : State) :
  (∀ s' log, dispatch c env s = Ok tt s' log →
     match c with
     | Call.submitTransaction _ _ | Call.setPolicyParameters _ _ _ =>
         lastSubmissionTime s'
           = <[msg_sender env := block_timestamp env]> (lastSubmissionTime s)
         ∧ lastDecryptionRequestTime s' = lastDecryptionRequestTime s
     | Call.requestApprovalStatus _ =>
         lastDecryptionRequestTime s'
           = <[msg_sender env := block_timestamp env]> (lastDecryptionRequestTime s)
         ∧ lastSubmissionTime s' = lastSubmissionTime s
     | _ =>
         lastSubmissionTime s' = lastSubmissionTime s
         ∧ lastDecryptionRequestTime s' = lastDecryptionRequestTime s
     end)
  ∧ (∀ s' log a, dispatch c env s = Ok tt s' log → a ≠ msg_sender env →
       lastSubmissionTime_of s' a = lastSubmissionTime_of s a
       ∧ lastDecryptionRequestTime_of s' a = lastDecryptionRequestTime_of s a)
  ∧ (¬ succeeds (dispatch c env s) →
     lastSubmissionTime (post_state (dispatch c env s) s) = lastSubmissionTime s
     ∧ lastDecryptionRequestTime (post_state (dispatch c env s) s)
       = lastDecryptionRequestTime s).
Proof.
  split; [|split].
  - intros s' log H. invert_call c H; split; reflexivity.
  - intros s' log a H Ha.
    unfold lastSubmissionTime_of, lastDecryptionRequestTime_of.
    invert_call c H; simpl; rewrite ?mapping_get_insert_ne by done; done.
  - intros Hs. destruct (dispatch c env s); [simpl in Hs; tauto|]. done.
Qed.

End RateLimit.


(** Closed goals over the concrete runs are settled by evaluation. *)
Ltac run := vm_compute; first [reflexivity | congruence | intuition congruence].

Section RunLemmas.
Import Sym SymLaws Run.

Lemma s0_reachable : reachable s0.
Proof. exists (at_ alice 1000), 0. apply steps_refl. Qed.

Lemma s1_reachable : reachable s1.
Proof.
  apply (reachable_step (at_ alice 1000) Call.openBatch s0 s1 [Event.BatchOpened 1]);
    [exact s0_reachable|run].
Qed.

Lemma s2_reachable : reachable s2.
Proof.
  apply (reachable_step (at_ alice 1000)
           (Call.submitTransaction (F:=lib) (Input 1 5000) (Input 2 2)) s1 s2
           [Event.TransactionSubmitted 1 alice]);
    [exact s1_reachable|run].
Qed.

Lemma s2_paused_reachable : reachable s2_paused.
Proof.
  apply (reachable_step (at_ alice 1001) Call.pause s2 s2_paused
           [Event.PausedContract alice]);
    [exact s2_reachable|run].
Qed.

Lemma s2_maxcd_reachable : reachable s2_maxcd.
Proof.
  apply (reachable_step (at_ alice 1001) (Call.setCooldownSeconds uint256_max)
           s2 s2_maxcd [Event.CooldownSecondsSet 60 uint256_max]);
    [exact s2_reachable|run].
Qed.

Lemma s3_reachable : reachable s3.
Proof.
  apply (reachable_step (at_ alice 1100) Call.closeBatch s2 s3 [Event.BatchClosed 1]);
    [exact s2_reachable|run].
Qed.

Lemma s4_reachable : reachable s4.
Proof.
  apply (reachable_step (at_ alice 1100) Call.openBatch s3 s4 [Event.BatchOpened 2]);
    [exact s3_reachable|run].
Qed.

Lemma s1_bob_removed_reachable : reachable s1_bob_removed.
Proof.
  apply (reachable_step (at_ alice 1501) (Call.removeProvider bob)
           s1_bob_submitted s1_bob_removed [Event.ProviderRemoved bob]); [|run].
  apply (reachable_step (at_ bob 1500)
           (Call.submitTransaction (F:=lib) (Input 1 5000) (Input 2 2))
           s1_bob s1_bob_submitted [Event.TransactionSubmitted 1 bob]); [|run].
  apply (reachable_step (at_ alice 1000) (Call.addProvider bob) s1 s1_bob
           [Event.ProviderAdded bob]);
    [exact s1_reachable|run].
Qed.

End RunLemmas.

(** ** The theorems at concrete inputs *)

Section Witnesses.
Import Sym SymLaws Run.

(** Scenario A up to the request: batch 1 is open, Alice's cooldown has run
    out, and her request for batch 1 reverts with [BatchClosed]. *)
Lemma C1_request_against_open_batch_reverts_witness :
  isOpen (batches_of s2 (currentBatchId s2)) = true
  ∧ currentBatchId s2 = 1
  ∧ requestApprovalStatus 1 (at_ alice 2000) s2 = Revert Error.BatchClosed.
Proof.
  split; [reflexivity|]. split; [reflexivity|].
  apply (C1_request_against_open_batch_reverts (at_ alice 2000) s2); run.
Defined.

(** Scenario A: 5000 ≤ 10000 with 2 approvals against a low threshold of 2
    decrypts to [true]. *)
Lemma C2_policy_predicate_decrypts_witness :
  decb (requestApprovalStatus_approvalStatus (batches_of s2 1)) = true.
Proof.
  destruct (C2_policy_predicate_decrypts (batches_of s2 1)) as (_ & _ & H & _).
  apply H. left. run.
Defined.

Lemma C3_processed_context_rejects_replay_witness :
  processed (decryptionContexts_of s_done 0) = true
  ∧ myCallback 0 cleartext_true proof0 (at_ bob 3001) s_done
    = Revert Error.ReplayAttempt
  ∧ processed
      (decryptionContexts_of
         (run_calls
            [(at_ bob 3001, Call.myCallback 0 cleartext_true proof0);
             (at_ alice 3002,
              Call.submitTransaction (F:=lib) (Input 3 10000) (Input 4 1));
             (at_ bob 3003, Call.myCallback 0 [] bad_proof)] s_done) 0) = true.
Proof.
  assert (Hp : processed (decryptionContexts_of s_done 0) = true) by run.
  assert (Hi : issued (oracle s_done) 0) by run.
  destruct (C3_processed_context_rejects_replay s_done 0 Hp) as [H1 H2].
  split; [exact Hp|]. split; [apply H1|]. apply (H2 Hi).
Defined.

Lemma C4_update_makes_pending_callback_stale_witness :
  myCallback 0 cleartext_true proof0 (at_ bob 3000) s_pending
    = Ok tt s_done [Event.DecryptionCompleted 0 1 true]
  ∧ FHE_checkSignatures (oracle s_stale) 0 cleartext_true proof0 = true
  ∧ myCallback 0 cleartext_true proof0 (at_ bob 3000) s_stale
    = Revert Error.StateMismatch.
Proof.
  split; [run|]. split; [run|].
  assert (H1 : decryptionContexts_of s_pending 0
               = pinned_context s_pending (batchId (decryptionContexts_of s_pending 0)))
    by run.
  assert (H2 : dispatch (Call.submitTransaction (F:=lib) (Input 3 10000) (Input 4 1))
                 (at_ alice 2000) s_pending
               = Ok tt s_stale [Event.TransactionSubmitted 1 alice]) by run.
  assert (H3 : encrypted_fields
                 (batches_of s_stale (batchId (decryptionContexts_of s_pending 0)))
               ≠ encrypted_fields
                   (batches_of s_pending (batchId (decryptionContexts_of s_pending 0))))
    by run.
  exact (proj1 (proj2 (C4_update_makes_pending_callback_stale (at_ alice 2000)
                         (Call.submitTransaction (F:=lib) (Input 3 10000) (Input 4 1))
                         s_pending s_stale [Event.TransactionSubmitted 1 alice] 0
                         H1 I H2 H3 (at_ bob 3000) cleartext_true proof0))).
Defined.

Lemma C5_callback_checks_and_completion_witness :
  myCallback 0 cleartext_true bad_proof (at_ bob 3000) s_pending
    = Revert Error.DecryptionFailed
  ∧ myCallback 0 cleartext_true proof0 (at_ bob 3000) s_pending
    = Ok tt (completed 0 s_pending) [Event.DecryptionCompleted 0 1 true].
Proof.
  assert (Hp : processed (decryptionContexts_of s_pending 0) = false) by run.
  assert (Hh : myCallback_currentHash s_pending 0
               = stateHash (decryptionContexts_of s_pending 0)) by run.
  assert (Hbad : FHE_checkSignatures (oracle s_pending) 0 cleartext_true bad_proof
                 = false) by run.
  assert (Hgood : FHE_checkSignatures (oracle s_pending) 0 cleartext_true proof0
                  = true) by run.
  assert (Hd : abi_decode_bool cleartext_true = Some true) by run.
  split.
  - exact (proj1 (proj1 (C5_callback_checks_and_completion (at_ bob 3000) s_pending 0
                           cleartext_true bad_proof) Hp Hh Hbad)).
  - exact (proj2 (proj2 (C5_callback_checks_and_completion (at_ bob 3000) s_pending 0
                           cleartext_true proof0)) Hp Hh Hgood true Hd).
Defined.

(** Alice submitted at time 1000; ten seconds later her next submission
    reverts with [CooldownActive]. *)
Lemma C6_cooldown_gates_rate_limited_calls_witness :
  submitTransaction (Input 3 10000) (Input 4 1) (at_ alice 1010) s2
  = Revert Error.CooldownActive.
Proof.
  apply (C6_cooldown_gates_rate_limited_calls (at_ alice 1010)
           (Call.submitTransaction (F:=lib) (Input 3 10000) (Input 4 1)) s2 I).
  - reflexivity.
  - reflexivity.
  - run.
  - run.
  - left. run.
Defined.

Lemma C7_timestamp_frame_witness :
  lastSubmissionTime s2 = <[alice := 1000]> (lastSubmissionTime s1)
  ∧ lastDecryptionRequestTime s2 = lastDecryptionRequestTime s1.
Proof.
  assert (H : dispatch (Call.submitTransaction (F:=lib) (Input 1 5000) (Input 2 2))
                (at_ alice 1000) s1
              = Ok tt s2 [Event.TransactionSubmitted 1 alice]) by run.
  exact (proj1 (C7_timestamp_frame (at_ alice 1000)
                  (Call.submitTransaction (F:=lib) (Input 1 5000) (Input 2 2)) s1)
           s2 [Event.TransactionSubmitted 1 alice] H).
Defined.

Lemma C8_one_open_batch_closed_immutable_witness :
  reachable s4
  ∧ (∀ k, isOpen (batches_of s4 k) = true → k = currentBatchId s4)
  ∧ (∀ s', steps s4 s' →
       isOpen (batches_of s4 1) = false ∧ batches_of s' 1 = batches_of s4 1).
Proof.
  destruct (C8_one_open_batch_closed_immutable s4 s4_reachable)
    as (_ & H2 & _ & H4).
  split; [exact s4_reachable|]. split; [exact H2|].
  intros s'. apply H4. run.
Defined.

Lemma C9_open_close_lifecycle_witness :
  openBatch (at_ alice 1002) s2 = Revert Error.BatchOpen
  ∧ closeBatch (at_ alice 1200) s3 = Revert Error.BatchClosed.
Proof.
  destruct (C9_open_close_lifecycle (at_ alice 1002) s2 eq_refl eq_refl)
    as (H1 & _).
  destruct (C9_open_close_lifecycle (at_ alice 1200) s3 eq_refl eq_refl)
    as (_ & _ & H3 & _).
  split; [apply H1|apply H3]; reflexivity.
Defined.

Lemma C10_deployer_is_owner_and_provider_witness :
  owner s0 = alice
  ∧ isProvider_of s0 alice = true
  ∧ succeeds (submitTransaction (Input 1 5000) (Input 2 2) (at_ alice 1000) s1).
Proof.
  destruct (C10_deployer_is_owner_and_provider (F:=lib) (at_ alice 1000) (0 : Z))
    as (_ & H2 & H3 & _ & H5).
  split; [exact H2|]. split; [exact H3|].
  destruct (H5 1000 1000 (Input 1 5000) (Input 2 2) Uninit Uninit Uninit)
    as (s & log & Hopen & Hsub & _); [run|].
  replace s1 with s; [exact Hsub|].
  vm_compute in Hopen. injection Hopen as <- _. reflexivity.
Defined.

(** Scenario B on the predicate: the total grows to 15000, above the limit
    of 10000, with 3 approvals against a high threshold of 4. *)
Lemma scenario_B_decrypts_to_false :
  dec32 (totalAmountEncrypted (batches_of s_stale 1)) = 15000
  ∧ dec32 (numApprovalsEncrypted (batches_of s_stale 1)) = 3
  ∧ decb (requestApprovalStatus_approvalStatus (batches_of s_stale 1)) = false.
Proof. repeat split; run. Qed.

(** ** Where the unamended statements fail *)

(** C6 as worded fails: with the cooldown still running, a paused system
    answers [Paused], a caller who is no longer a provider gets
    [NotProvider], and a cooldown so large that the sum overflows makes the
    call panic; none of these is [CooldownActive]. *)
Lemma C6_counterexample :
  (reachable s2_paused ∧ reachable s1_bob_removed ∧ reachable s2_maxcd)
  ∧ (block_timestamp (at_ alice 1010)
     < lastSubmissionTime_of s2_paused alice + cooldownSeconds s2_paused
   ∧ submitTransaction (Input 3 10000) (Input 4 1) (at_ alice 1010) s2_paused
     = Revert Error.Paused
   ∧ setPolicyParameters (Input 5 3) (Input 6 5) (Input 7 20000) (at_ alice 1010) s2_paused
     = Revert Error.Paused
   ∧ requestApprovalStatus 1 (at_ alice 1010) s2_paused = Revert Error.Paused)
  ∧ (block_timestamp (at_ bob 1510)
       < lastSubmissionTime_of s1_bob_removed bob + cooldownSeconds s1_bob_removed
     ∧ submitTransaction (Input 3 10000) (Input 4 1) (at_ bob 1510) s1_bob_removed
       = Revert Error.NotProvider)
  ∧ (block_timestamp (at_ alice 1010)
       < lastSubmissionTime_of s2_maxcd alice + cooldownSeconds s2_maxcd
     ∧ submitTransaction (Input 3 10000) (Input 4 1) (at_ alice 1010) s2_maxcd
       = Revert Error.Panic
     ∧ requestApprovalStatus 1 (at_ alice 1010) s2_maxcd = Revert Error.Panic).
Proof.
  split; [|repeat split; run].
  split; [exact s2_paused_reachable|].
  split; [exact s1_bob_removed_reachable|exact s2_maxcd_reachable].
Qed.

(** C9 as worded fails: with batch 1 open, [openBatch] on a paused system
    reverts with [Paused], not [BatchOpen], and [closeBatch] reverts
    likewise instead of closing; with no batch open, [openBatch] from a
    caller other than the owner reverts with [NotOwner] instead of opening;
    and at the last id [closeBatch] panics instead of advancing. *)
Lemma C9_counterexample :
  (reachable s2_paused ∧ reachable s3)
  ∧ (isOpen (batches_of s2_paused (currentBatchId s2_paused)) = true
   ∧ openBatch (at_ alice 1002) s2_paused = Revert Error.Paused
   ∧ closeBatch (at_ alice 1002) s2_paused = Revert Error.Paused)
  ∧ (isOpen (batches_of s3 (currentBatchId s3)) = false
     ∧ openBatch (at_ bob 1200) s3 = Revert Error.NotOwner)
  ∧ (isOpen (batches_of s_last (currentBatchId s_last)) = true
     ∧ closeBatch (at_ alice 1200) s_last = Revert Error.Panic).
Proof.
  split; [|repeat split; run].
  split; [exact s2_paused_reachable|exact s3_reachable].
Qed.

End Witnesses.

(** ** Access control *)

Section AccessControl.
Context {F : FHELib} {D : Deployment}.

Lemma owner_only_other_caller env c s :
  owner_only c → msg_sender env ≠ owner s →
  dispatch c env s = Revert Error.NotOwner.
Proof.
  intros Hc Hne.
  assert (Hb : negb (msg_sender env =? owner s) = true).
  { apply negb_true_iff, Z.eqb_neq, Hne. }
  destruct c; try contradiction; cbn [dispatch].
  - by rewrite transferOwnership_run, Hb.
  - by rewrite addProvider_run, Hb.
  - by rewrite removeProvider_run, Hb.
  - by rewrite pause_run, Hb.
  - by rewrite unpause_run, Hb.
  - by rewrite setCooldownSeconds_run, Hb.
  - by rewrite openBatch_run, Hb.
  - by rewrite closeBatch_run, Hb.
Qed.

Lemma provider_only_other_caller env c s :
  provider_only c → isProvider_of s (msg_sender env) = false →
  dispatch c env s = Revert Error.NotProvider.
Proof.
  intros Hc Hp. destruct c; try contradiction; cbn [dispatch].
  - by rewrite setPolicyParameters_run, Hp.
  - by rewrite submitTransaction_run, Hp.
Qed.

(** X1: each of the eight owner-only entry points reverts with [NotOwner]
    for any caller other than the owner, before looking at anything else
    (pause switch, arguments, batch phase); so a call of one of them that
    succeeds came from the owner. *)
Theorem X1_owner_only_calls_need_the_owner env c (s : State) :
  owner_only c →
  (msg_sender env ≠ owner s → dispatch c env s = Revert Error.NotOwner)
  ∧ (succeeds (dispatch c env s) → msg_sender env = owner s).
Proof.
  intros Hc. split; [by apply owner_only_other_caller|].
  intros Hs. destruct (decide (msg_sender env = owner s)) as [|Hne]; [done|].
  rewrite (owner_only_other_caller env c s Hc Hne) in Hs. contradiction.
Qed.

(** X2: [submitTransaction] and [setPolicyParameters] revert with
    [NotProvider] for a caller that is not in the provider registry,
    whatever the pause switch, the cooldown clocks and the batch phase are;
    a call of one of them that succeeds came from a provider. *)
Theorem X2_provider_calls_need_a_provider env c (s : State) :
  provider_only c →
  (isProvider_of s (msg_sender env) = false →
   dispatch c env s = Revert Error.NotProvider)
  ∧ (succeeds (dispatch c env s) → isProvider_of s (msg_sender env) = true).
Proof.
  intros Hc. split; [by apply provider_only_other_caller|].
  intros Hs. destruct (isProvider_of s (msg_sender env)) eqn:Hp; [done|].
  rewrite (provider_only_other_caller env c s Hc Hp) in Hs. contradiction.
Qed.

(** X3: called by the owner, [addProvider p] leaves [p] registered and
    [removeProvider p] leaves it unregistered, each without touching any
    other address; an event is emitted exactly when the flag changed. *)
Theorem X3_provider_registry_updates env p (s : State) :
  msg_sender env = owner s →
  (∃ s1 log,
     addProvider p env s = Ok tt s1 log
     ∧ log = (if isProvider_of s p then [] else [Event.ProviderAdded p])
     ∧ isProvider_of s1 p = true
     ∧ ∀ q, q ≠ p → isProvider_of s1 q = isProvider_of s q)
  ∧ (∃ s1 log,
       removeProvider p env s = Ok tt s1 log
       ∧ log = (if isProvider_of s p then [Event.ProviderRemoved p] else [])
       ∧ isProvider_of s1 p = false
       ∧ ∀ q, q ≠ p → isProvider_of s1 q = isProvider_of s q).
Proof.
  intros Ho.
  assert (Hb : negb (msg_sender env =? owner s) = false).
  { rewrite Ho, Z.eqb_refl. reflexivity. }
  split.
  - rewrite addProvider_run, Hb. destruct (isProvider_of s p) eqn:Hp; simpl.
    + exists s, []. by repeat split.
    + eexists _, _. split; [reflexivity|]. split; [reflexivity|].
      unfold isProvider_of. simpl. split; [apply mapping_get_insert|].
      intros q Hq. by rewrite mapping_get_insert_ne.
  - rewrite removeProvider_run, Hb. destruct (isProvider_of s p) eqn:Hp; simpl.
    + eexists _, _. split; [reflexivity|]. split; [reflexivity|].
      unfold isProvider_of. simpl. split; [apply mapping_get_insert|].
      intros q Hq. by rewrite mapping_get_insert_ne.
    + exists s, []. by repeat split.
Qed.

(** X4: [addProvider] and [removeProvider] are idempotent for every caller:
    issuing the call twice leaves the storage the first call left, and the
    second call of an owner emits nothing. *)
Theorem X4_provider_registry_idempotent env p (s : State) :
  run_calls [(env, Call.addProvider p); (env, Call.addProvider p)] s
    = run_calls [(env, Call.addProvider p)] s
  ∧ run_calls [(env, Call.removeProvider p); (env, Call.removeProvider p)] s
    = run_calls [(env, Call.removeProvider p)] s
  ∧ (∀ s1 log, addProvider p env s = Ok tt s1 log →
       addProvider p env s1 = Ok tt s1 [])
  ∧ (∀ s1 log, removeProvider p env s = Ok tt s1 log →
       removeProvider p env s1 = Ok tt s1 []).
Proof.
  assert (Hadd : ∀ s1 log, addProvider p env s = Ok tt s1 log →
                   addProvider p env s1 = Ok tt s1 []).
  { intros s1 log H. rewrite addProvider_run in H. case_ifs H; simplify_eq.
    - rewrite addProvider_run. simpl.
      match goal with H : negb (_ =? _) = false |- _ => rewrite H end.
      unfold isProvider_of. simpl. by rewrite mapping_get_insert.
    - rewrite addProvider_run.
      repeat match goal with H : negb _ = false |- _ => rewrite H end. done. }
  assert (Hrem : ∀ s1 log, removeProvider p env s = Ok tt s1 log →
                   removeProvider p env s1 = Ok tt s1 []).
  { intros s1 log H. rewrite removeProvider_run in H. case_ifs H; simplify_eq.
    - rewrite removeProvider_run. simpl.
      match goal with H : negb (_ =? _) = false |- _ => rewrite H end.
      unfold isProvider_of. simpl. by rewrite mapping_get_insert.
    - rewrite removeProvider_run.
      match goal with H : negb (_ =? _) = false |- _ => rewrite H end.
      match goal with H : isProvider_of _ _ = false |- _ => rewrite H end. done. }
  split; [|split; [|split; [exact Hadd|exact Hrem]]]; cbn [run_calls dispatch].
  - destruct (addProvider p env s) as [[] s1 log|e] eqn:H; simpl.
    + by rewrite (Hadd s1 log).
    + by rewrite H.
  - destruct (removeProvider p env s) as [[] s1 log|e] eqn:H; simpl.
    + by rewrite (Hrem s1 log).
    + by rewrite H.
Qed.

(** X5: [pause] and [unpause] are strict toggles reserved to the owner: on
    an unpaused system [unpause] reverts with [Paused] and [pause] sets the
    switch; on the paused system a second [pause] reverts with [Paused],
    and [unpause] brings back exactly the storage there was before the
    pause. *)
Theorem X5_pause_unpause_round_trip env (s : State) :
  msg_sender env = owner s → paused s = false →
  unpause env s = Revert Error.Paused
  ∧ ∃ s1,
      pause env s = Ok tt s1 [Event.PausedContract (msg_sender env)]
      ∧ paused s1 = true
      ∧ pause env s1 = Revert Error.Paused
      ∧ unpause env s1 = Ok tt s [Event.UnpausedContract (msg_sender env)].
Proof.
  intros Ho Hp.
  assert (Hb : negb (msg_sender env =? owner s) = false).
  { rewrite Ho, Z.eqb_refl. reflexivity. }
  split; [by rewrite unpause_run, Hb, Hp|].
  exists (set_paused true s). rewrite !pause_run, unpause_run. simpl.
  rewrite Hb, Hp. repeat split.
  destruct s; simpl in *; subst; reflexivity.
Qed.

(** X8: a successful [transferOwnership] was called by the owner, installs
    the new owner and leaves the provider registry as it was: the previous
    owner, if a different address, is now turned away by every owner-only
    entry point, and the new owner is a provider only if it already was. *)
Theorem X8_transferOwnership_moves_only_the_owner env newOwner (s s' : State) log :
  transferOwnership newOwner env s = Ok tt s' log →
  msg_sender env = owner s
  ∧ owner s' = newOwner
  ∧ log = [Event.OwnershipTransferred (owner s) newOwner]
  ∧ isProvider s' = isProvider s
  ∧ (newOwner ≠ owner s →
     ∀ c env', owner_only c → msg_sender env' = owner s →
       dispatch c env' s' = Revert Error.NotOwner)
  ∧ (isProvider_of s newOwner = false →
     ∀ c env', provider_only c → msg_sender env' = newOwner →
       dispatch c env' s' = Revert Error.NotProvider).
Proof.
  intros H. rewrite transferOwnership_run in H. case_ifs H. simplify_eq.
  match goal with H : negb _ = false |- _ =>
    apply negb_false_iff, Z.eqb_eq in H; rename H into Ho end.
  repeat split; try done.
  - intros Hne c env' Hc He. apply owner_only_other_caller; [done|].
    simpl. congruence.
  - intros Hp c env' Hc He. apply provider_only_other_caller; [done|].
    rewrite He. exact Hp.
Qed.

End AccessControl.

(** ** What the calls keep *)

Section Invariants.
Context {F : FHELib} {D : Deployment}.

Lemma cooldown_check_errors env s e :
  cooldown_check env s = Some e → e = Error.Panic ∨ e = Error.CooldownActive.
Proof.
  unfold cooldown_check. cbv zeta. intros H. case_ifs H; simplify_eq; auto.
Qed.

(** X6: while the pause switch is on, the only entry points that can
    succeed are the ones without [whenNotPaused] (ownership, provider
    registry, cooldown setting, [unpause], and [myCallback]); whatever
    succeeds leaves the batch table, the batch counter, both cooldown
    clocks and the oracle state as they were. *)
Theorem X6_paused_system_keeps_batches_and_clocks env c (s s' : State) log :
  paused s = true →
  dispatch c env s = Ok tt s' log →
  pause_exempt c
  ∧ batches s' = batches s
  ∧ currentBatchId s' = currentBatchId s
  ∧ lastSubmissionTime s' = lastSubmissionTime s
  ∧ lastDecryptionRequestTime s' = lastDecryptionRequestTime s
  ∧ oracle s' = oracle s.
Proof.
  intros Hp H. destruct c; cbn [dispatch] in H; rewrite_run H;
    rewrite ?Hp in H; case_ifs H; simplify_eq; by repeat split.
Qed.

Lemma step_cooldownSeconds s s' :
  step s s' → 0 < cooldownSeconds s → 0 < cooldownSeconds s'.
Proof.
  intros (env & c & log & H) Hpos. invert_call c H; try exact Hpos.
  simpl. match goal with H : negb (0 <? _) = false |- _ =>
    apply negb_false_iff, Z.ltb_lt in H; exact H end.
Qed.

Lemma reachable_cooldownSeconds s : reachable s → 0 < cooldownSeconds s.
Proof.
  intros (env & o & Hsteps). remember (deployed env o) as s0 eqn:E.
  induction Hsteps as [|s0 s1 s2 _ IH Hstep]; subst.
  - simpl. lia.
  - eapply step_cooldownSeconds; eauto.
Qed.

(** X7: the cooldown is strictly positive in every storage reachable from
    deployment: it starts at 60 and [setCooldownSeconds], the only writer,
    turns a value that is not positive away with its [require] message. *)
Theorem X7_cooldown_stays_positive (s : State) :
  reachable s →
  0 < cooldownSeconds s
  ∧ ∀ env newCooldown,
      msg_sender env = owner s → newCooldown ≤ 0 →
      setCooldownSeconds newCooldown env s
      = Revert (Error.RequireFailed "Cooldown must be positive").
Proof.
  intros Hr. split; [by apply reachable_cooldownSeconds|].
  intros env n Ho Hn. rewrite setCooldownSeconds_run, Ho, Z.eqb_refl. simpl.
  replace (0 <? n) with false by (symmetry; apply Z.ltb_ge; lia). reflexivity.
Qed.

(** X9: a reverting call raises only an error its own code path has:
    [InvalidThreshold] and [InvalidLimit] are declared but never raised by
    any entry point, the three protocol errors and the decoding failure
    come from [myCallback] alone, [BatchOpen] from [openBatch] alone,
    [NotOwner], [NotProvider] and [CooldownActive] only from the entry
    points carrying the matching modifier, and an arithmetic panic only
    from [closeBatch] or a rate-limited call. *)
Theorem X9_errors_by_entry_point env c (s : State) e :
  dispatch c env s = Revert e → may_raise c e.
Proof.
  intros H. destruct c; cbn [dispatch] in H; rewrite_run H; case_ifs H;
    simplify_eq; try exact I; try reflexivity.
  all: match goal with
       | H : cooldown_check _ _ = Some _ |- _ =>
           apply cooldown_check_errors in H as [->| ->]; exact I
       end.
Qed.

(** X10: a successful call emits at most one event, and one that emits none
    (an [addProvider] or [removeProvider] that found nothing to change)
    has left the storage exactly as it was: no entry point changes storage
    silently. *)
Theorem X10_no_silent_storage_change env c (s s' : State) log :
  dispatch c env s = Ok tt s' log →
  (length log ≤ 1)%nat
  ∧ (log = [] →
     s' = s
     ∧ match c with
       | Call.addProvider _ | Call.removeProvider _ => True
       | _ => False
       end).
Proof.
  intros H. invert_call c H; simpl; split; try lia; try discriminate; done.
Qed.

Lemma step_batch_table_shape s s' :
  step s s' → batch_table_shape s → batch_table_shape s'.
Proof.
  intros (env & c & log & H) (Hcur & Hshape).
  assert (Hkeep : ∀ f,
            (∀ b, id (f b) = id b) →
            batch_table_shape
              (write_batch (currentBatchId s) (f (batches_of s (currentBatchId s))) s)).
  { intros f Hf. split; [exact Hcur|]. intros k.
    rewrite currentBatchId_write.
    destruct (decide (k = currentBatchId s)) as [->|Hne].
    - rewrite batches_of_write, Hf. split; [apply Hshape|]. lia.
    - rewrite batches_of_write_ne by done. apply Hshape. }
  invert_call c H; try (split; [exact Hcur|exact Hshape]).
  - (* openBatch *) by apply (Hkeep opened_batch).
  - (* closeBatch *)
    destruct (Hkeep (set_isOpen false) (λ _, eq_refl)) as [_ Hs].
    split; [simpl; lia|]. intros k. simpl.
    split; [apply Hs|]. intros Hk.
    destruct (decide (k = currentBatchId s)) as [->|Hne]; [lia|].
    apply Hs. rewrite currentBatchId_write. lia.
  - (* setPolicyParameters *)
    by apply (Hkeep (policy_batch threshold2 threshold4 limit)).
  - (* submitTransaction *)
    by apply (Hkeep (submitted_batch amount numApprovals)).
Qed.

Lemma reachable_batch_table_shape s : reachable s → batch_table_shape s.
Proof.
  intros (env & o & Hsteps). remember (deployed env o) as s0 eqn:E.
  induction Hsteps as [|s0 s1 s2 _ IH Hstep]; subst.
  - split; [simpl; lia|]. intros k. by split.
  - eapply step_batch_table_shape; eauto.
Qed.

(** X11: in every storage reachable from deployment the batch counter is
    at least 1, the [id] field of every batch record is 0 (no entry point
    writes it, so the public getter never returns the batch's number
    there), and every batch outside [1 .. currentBatchId], batch 0
    included, is the unwritten zero record. *)
Theorem X11_batch_table_shape (s : State) :
  reachable s →
  1 ≤ currentBatchId s
  ∧ (∀ k, id (batches_of s k) = 0)
  ∧ (∀ k, k < 1 ∨ currentBatchId s < k → batches_of s k = Batch_zero).
Proof.
  intros Hr. destruct (reachable_batch_table_shape s Hr) as [H1 H2].
  split; [exact H1|]. split; intros k; [apply H2|]. apply (H2 k).
Qed.

Lemma step_no_request_recorded o s s' :
  step s s' → open_is_current s →
  no_request_recorded o s → no_request_recorded o s'.
Proof.
  intros (env & c & log & H) Hinv (Hclock & Horacle & Hctx).
  destruct c; cbn [dispatch] in H.
  11: { (* requestApprovalStatus *)
    exfalso.
    assert (Hs : succeeds (requestApprovalStatus batchId0 env s)) by (by rewrite H).
    apply requestApprovalStatus_succeeds_iff in Hs as (_ & _ & Hlt & Ho).
    apply Hinv in Ho. lia. }
  all: rewrite_run H; case_ifs H; simplify_eq;
    try (split; [done|split; [done|exact Hctx]]).
  (* myCallback *)
  split; [done|]. split; [done|]. intros r.
  rewrite decryptionContexts_of_completed.
  destruct (decide (requestId = r)) as [->|]; [|apply Hctx].
  simpl. apply Hctx.
Qed.

Lemma deployed_steps_no_request_recorded env o s :
  steps (deployed env o) s → no_request_recorded o s.
Proof.
  intros Hsteps. remember (deployed env o) as s0 eqn:E.
  induction Hsteps as [|s0 s1 s2 Hsteps IH Hstep]; subst.
  - by repeat split.
  - eapply step_no_request_recorded; [exact Hstep| |by apply IH].
    apply reachable_open_is_current. by exists env, o.
Qed.

(** X12: after any sequence of calls following deployment, no decryption
    request has been recorded: the request clock of every address is
    unset, the oracle's state is the one the contract was deployed with,
    and no stored context carries a batch id or a pinned digest. *)
Theorem X12_no_request_is_ever_recorded env o (s : State) :
  steps (deployed env o) s →
  lastDecryptionRequestTime s = ∅
  ∧ (∀ a, lastDecryptionRequestTime_of s a = 0)
  ∧ oracle s = o
  ∧ ∀ r, batchId (decryptionContexts_of s r) = 0
         ∧ stateHash (decryptionContexts_of s r) = bytes32_zero.
Proof.
  intros Hsteps.
  destruct (deployed_steps_no_request_recorded env o s Hsteps) as (H1 & H2 & H3).
  split; [exact H1|]. split; [|split; [exact H2|exact H3]].
  intros a. unfold lastDecryptionRequestTime_of, mapping_get.
  by rewrite H1, lookup_empty.
Qed.

Lemma step_contexts_empty o s s' :
  (∀ l a, keccak256_encode l a ≠ bytes32_zero) →
  step s s' → no_request_recorded o s → open_is_current s →
  decryptionContexts s = ∅ → decryptionContexts s' = ∅.
Proof.
  intros Hk (env & c & log & H) (_ & _ & Hctx) Hinv He.
  destruct c; cbn [dispatch] in H.
  11: { exfalso.
    assert (Hs : succeeds (requestApprovalStatus batchId0 env s)) by (by rewrite H).
    apply requestApprovalStatus_succeeds_iff in Hs as (_ & _ & Hlt & Ho).
    apply Hinv in Ho. lia. }
  all: rewrite_run H; case_ifs H; simplify_eq; try exact He.
  (* myCallback cannot pass the digest comparison *)
  exfalso.
  match goal with H : negb (bool_decide _) = false |- _ =>
    apply negb_false_iff, bool_decide_eq_true in H; rename H into Hh end.
  rewrite (proj2 (Hctx requestId)) in Hh. by apply Hk in Hh.
Qed.

(** X13: provided the digest function never returns the zero word, no
    callback ever completes on storage reachable from deployment: the
    context table stays empty, and [myCallback] reverts with
    [StateMismatch] for every request id, cleartext, proof and caller. *)
Theorem X13_no_callback_completes_after_deployment env o (s : State) :
  (∀ l a, keccak256_encode l a ≠ bytes32_zero) →
  steps (deployed env o) s →
  decryptionContexts s = ∅
  ∧ ∀ requestId cleartexts proof env',
      myCallback requestId cleartexts proof env' s = Revert Error.StateMismatch.
Proof.
  intros Hk Hsteps.
  assert (He : decryptionContexts s = ∅).
  { remember (deployed env o) as s0 eqn:E.
    induction Hsteps as [|s0 s1 s2 Hsteps IH Hstep]; subst; [reflexivity|].
    eapply (step_contexts_empty o); [exact Hk|exact Hstep| | |by apply IH].
    - by apply (deployed_steps_no_request_recorded env).
    - apply reachable_open_is_current. by exists env, o. }
  split; [exact He|]. intros r ct pf env'. rewrite myCallback_run.
  assert (Hz : decryptionContexts_of s r = DecryptionContext_zero).
  { unfold decryptionContexts_of, mapping_get. by rewrite He, lookup_empty. }
  rewrite Hz. simpl. rewrite bool_decide_eq_false_2; [reflexivity|].
  apply Hk.
Qed.

End Invariants.

(** ** Provider calls on the open batch *)

Section ProviderCalls.
Context {F : FHELib} {D : Deployment}.

Lemma provider_call_succeeds_iff env c s :
  provider_only c →
  succeeds (dispatch c env s)
  ↔ isProvider_of s (msg_sender env) = true ∧ paused s = false
    ∧ cooldown_check env s = None
    ∧ isOpen (batches_of s (currentBatchId s)) = true.
Proof.
  intros Hc. destruct c; try contradiction; cbn [dispatch].
  - rewrite setPolicyParameters_run.
    destruct (isProvider_of s (msg_sender env)), (paused s),
      (cooldown_check env s), (isOpen (batches_of s (currentBatchId s)));
      simpl; split; try tauto; intros (? & ? & ? & ?); discriminate.
  - rewrite submitTransaction_run.
    destruct (isProvider_of s (msg_sender env)), (paused s),
      (cooldown_check env s), (isOpen (batches_of s (currentBatchId s)));
      simpl; split; try tauto; intros (? & ? & ? & ?); discriminate.
Qed.

(** Storage after a successful provider call, up to the batch it wrote. *)
Lemma provider_call_post env c s s' log :
  provider_only c → dispatch c env s = Ok tt s' log →
  ∃ b, s' = stamp_submission env (write_batch (currentBatchId s) b s)
       ∧ isOpen b = true
       ∧ b = match c with
             | Call.setPolicyParameters t2 t4 l =>
                 policy_batch t2 t4 l (batches_of s (currentBatchId s))
             | Call.submitTransaction a n =>
                 submitted_batch a n (batches_of s (currentBatchId s))
             | _ => b
             end.
Proof.
  intros Hc H. destruct c; try contradiction; cbn [dispatch] in H;
    rewrite_run H; case_ifs H; simplify_eq; eexists; (split; [reflexivity|]);
    (split; [|reflexivity]); simpl;
    match goal with H : negb (isOpen _) = false |- _ =>
      by apply negb_false_iff in H end.
Qed.

(** X14: on the open batch a policy update overwrites and a submission
    accumulates, and the two do not interfere: of two successive
    [setPolicyParameters] calls the later one determines the three policy
    handles while the totals stay as they were, and a submission followed
    by a policy update leaves the same five handles as the same policy
    update followed by the same submission. *)
Theorem X14_policy_overwrites_and_commutes_with_submission
    (s : State) t2 t4 l t2' t4' l' a n :
  (∀ env1 env2 s1 s2 log1 log2,
     setPolicyParameters t2 t4 l env1 s = Ok tt s1 log1 →
     setPolicyParameters t2' t4' l' env2 s1 = Ok tt s2 log2 →
     encrypted_fields (batches_of s2 (currentBatchId s))
     = (totalAmountEncrypted (batches_of s (currentBatchId s)),
        numApprovalsEncrypted (batches_of s (currentBatchId s)), t2', t4', l'))
  ∧ (∀ env1 env2 env3 env4 s1 s2 s3 s4 log1 log2 log3 log4,
       submitTransaction a n env1 s = Ok tt s1 log1 →
       setPolicyParameters t2 t4 l env2 s1 = Ok tt s2 log2 →
       setPolicyParameters t2 t4 l env3 s = Ok tt s3 log3 →
       submitTransaction a n env4 s3 = Ok tt s4 log4 →
       batches_of s2 (currentBatchId s) = batches_of s4 (currentBatchId s)
       ∧ encrypted_fields (batches_of s2 (currentBatchId s))
         = (FHE_add (totalAmountEncrypted (batches_of s (currentBatchId s))) a,
            FHE_add (numApprovalsEncrypted (batches_of s (currentBatchId s))) n,
            t2, t4, l)).
Proof.
  split.
  - intros env1 env2 s1 s2 log1 log2 H1 H2.
    rewrite setPolicyParameters_run in H1. case_ifs H1. simplify_eq.
    rewrite setPolicyParameters_run in H2. case_ifs H2. simplify_eq.
    change (currentBatchId (stamp_submission env1 (write_batch ?k ?b s)))
      with (currentBatchId s).
    change (batches_of (stamp_submission env1 (write_batch ?k ?b s)) ?j)
      with (batches_of (write_batch k b s) j).
    change (batches_of (stamp_submission env2 ?x) ?j) with (batches_of x j).
    by rewrite !batches_of_write.
  - intros env1 env2 env3 env4 s1 s2 s3 s4 log1 log2 log3 log4 H1 H2 H3 H4.
    rewrite submitTransaction_run in H1. case_ifs H1. simplify_eq.
    rewrite setPolicyParameters_run in H2. case_ifs H2. simplify_eq.
    rewrite setPolicyParameters_run in H3. case_ifs H3. simplify_eq.
    rewrite submitTransaction_run in H4. case_ifs H4. simplify_eq.
    change (currentBatchId (stamp_submission ?e (write_batch ?k ?b s)))
      with (currentBatchId s).
    change (batches_of (stamp_submission env1 (write_batch ?k ?b s)) ?j)
      with (batches_of (write_batch k b s) j).
    change (batches_of (stamp_submission env3 (write_batch ?k ?b s)) ?j)
      with (batches_of (write_batch k b s) j).
    change (batches_of (stamp_submission env2 ?x) ?j) with (batches_of x j).
    change (batches_of (stamp_submission env4 ?x) ?j) with (batches_of x j).
    rewrite !batches_of_write. by split.
Qed.

(** X17: after a successful [submitTransaction] or [setPolicyParameters] at
    time t, every rate-limited call of the same sender before
    t + cooldownSeconds fails, with [CooldownActive] when that sum fits in
    a uint256; from t + cooldownSeconds on (times and the cooldown being
    uint256 values), its next provider call succeeds again; and the clocks
    of all other senders are as before. *)
Theorem X17_cooldown_after_a_provider_call env c0 (s s' : State) log :
  provider_only c0 →
  dispatch c0 env s = Ok tt s' log →
  (∀ env' c,
     rate_limited c → msg_sender env' = msg_sender env →
     block_timestamp env' < block_timestamp env + cooldownSeconds s →
     ¬ succeeds (dispatch c env' s')
     ∧ (block_timestamp env + cooldownSeconds s ≤ uint256_max →
        dispatch c env' s' = Revert Error.CooldownActive))
  ∧ (∀ env' c,
       provider_only c → msg_sender env' = msg_sender env → valid_env env' →
       0 ≤ cooldownSeconds s →
       block_timestamp env + cooldownSeconds s ≤ block_timestamp env' →
       succeeds (dispatch c env' s'))
  ∧ (∀ env', msg_sender env' ≠ msg_sender env →
       cooldown_check env' s' = cooldown_check env' s).
Proof.
  intros Hc0 H0.
  assert (Hs0 : succeeds (dispatch c0 env s)) by (by rewrite H0).
  apply provider_call_succeeds_iff in Hs0 as (Hprov & Hpause & Hcheck & Hopen);
    [|done].
  destruct (provider_call_post env c0 s s' log Hc0 H0) as (b & -> & Hb & _).
  set (s1 := write_batch (currentBatchId s) b s).
  assert (Hsub : ∀ env', msg_sender env' = msg_sender env →
            lastSubmissionTime_of (stamp_submission env s1) (msg_sender env')
            = block_timestamp env).
  { intros env' ->. apply mapping_get_insert. }
  assert (Hother : ∀ env', msg_sender env' ≠ msg_sender env →
            cooldown_check env' (stamp_submission env s1) = cooldown_check env' s).
  { intros env' Hne. unfold cooldown_check, lastSubmissionTime_of. simpl.
    by rewrite mapping_get_insert_ne. }
  assert (Hcd : cooldownSeconds (stamp_submission env s1) = cooldownSeconds s)
    by reflexivity.
  assert (Hdec : ∀ env', lastDecryptionRequestTime_of (stamp_submission env s1)
                            (msg_sender env')
                         = lastDecryptionRequestTime_of s (msg_sender env'))
    by reflexivity.
  apply cooldown_check_None in Hcheck as [_ Hclock2].
  split; [|split; [|exact Hother]].
  - intros env' c Hc Hsender Hlt.
    assert (Hfail : ∃ e, cooldown_check env' (stamp_submission env s1) = Some e
                         ∧ (block_timestamp env + cooldownSeconds s ≤ uint256_max →
                            e = Error.CooldownActive)).
    { unfold cooldown_check. cbv zeta. rewrite (Hsub env' Hsender), Hcd.
      destruct (Z.leb_spec (block_timestamp env + cooldownSeconds s) uint256_max);
        cbn [negb].
      - replace (block_timestamp env' <? _) with true
          by (symmetry; apply Z.ltb_lt; lia).
        eexists. by split.
      - eexists. split; [reflexivity|]. lia. }
    destruct Hfail as (e & He & Hfit).
    assert (Hrev : dispatch c env' (stamp_submission env s1) = Revert e).
    { destruct c; try contradiction; cbn [dispatch].
      - rewrite setPolicyParameters_run, He.
        replace (isProvider_of (stamp_submission env s1) (msg_sender env'))
          with true by (by rewrite Hsender).
        by replace (paused (stamp_submission env s1)) with false.
      - rewrite submitTransaction_run, He.
        replace (isProvider_of (stamp_submission env s1) (msg_sender env'))
          with true by (by rewrite Hsender).
        by replace (paused (stamp_submission env s1)) with false.
      - rewrite requestApprovalStatus_run, He.
        by replace (paused (stamp_submission env s1)) with false. }
    rewrite Hrev. split; [tauto|]. intros Hmax. by rewrite (Hfit Hmax).
  - intros env' c Hc Hsender Hvalid Hpos Hge.
    apply provider_call_succeeds_iff; [done|].
    split; [by rewrite Hsender|]. split; [done|]. split.
    + apply cooldown_check_pass; [exact Hvalid|].
      split; [rewrite (Hsub env' Hsender), Hcd; lia|].
      rewrite Hdec, Hcd, Hsender. lia.
    + change (isOpen (batches_of s1 (currentBatchId s)) = true).
      unfold s1. by rewrite batches_of_write.
Qed.

End ProviderCalls.

(** ** Plaintext view of the batch *)

Section PlaintextView.
Context {F : FHELib} {D : Deployment} {S : FHESemantics F}.

(** X15: a successful [submitTransaction] adds the submitted amount and
    approval count to the batch totals modulo 2^32: the running totals wrap
    around instead of reverting or saturating; the policy handles are not
    touched. *)
Theorem X15_submission_adds_modulo_2_32 env amount numApprovals (s s' : State) log :
  submitTransaction amount numApprovals env s = Ok tt s' log →
  dec32 (totalAmountEncrypted (batches_of s' (currentBatchId s)))
    = (dec32 (totalAmountEncrypted (batches_of s (currentBatchId s)))
       + dec32 amount) mod 2 ^ 32
  ∧ dec32 (numApprovalsEncrypted (batches_of s' (currentBatchId s)))
    = (dec32 (numApprovalsEncrypted (batches_of s (currentBatchId s)))
       + dec32 numApprovals) mod 2 ^ 32
  ∧ threshold2Encrypted (batches_of s' (currentBatchId s))
    = threshold2Encrypted (batches_of s (currentBatchId s))
  ∧ threshold4Encrypted (batches_of s' (currentBatchId s))
    = threshold4Encrypted (batches_of s (currentBatchId s))
  ∧ limitEncrypted (batches_of s' (currentBatchId s))
    = limitEncrypted (batches_of s (currentBatchId s)).
Proof.
  intros H. rewrite submitTransaction_run in H. case_ifs H. simplify_eq.
  change (batches_of (stamp_submission env (write_batch ?k ?b s)) ?j)
    with (batches_of (write_batch k b s) j).
  rewrite batches_of_write. simpl. rewrite !dec_add. done.
Qed.

(** X16: whatever the storage held at the current id, the batch a
    successful [openBatch] leaves decrypts to totals 0 and 0, thresholds 2
    and 4 and limit 10000, and its policy predicate decrypts to [false]:
    a batch starts unapproved, and nothing of an earlier policy carries
    over. *)
Theorem X16_opened_batch_starts_unapproved env (s s' : State) log :
  openBatch env s = Ok tt s' log →
  dec32 (totalAmountEncrypted (batches_of s' (currentBatchId s'))) = 0
  ∧ dec32 (numApprovalsEncrypted (batches_of s' (currentBatchId s'))) = 0
  ∧ dec32 (threshold2Encrypted (batches_of s' (currentBatchId s'))) = 2
  ∧ dec32 (threshold4Encrypted (batches_of s' (currentBatchId s'))) = 4
  ∧ dec32 (limitEncrypted (batches_of s' (currentBatchId s'))) = 10000
  ∧ decb (requestApprovalStatus_approvalStatus (batches_of s' (currentBatchId s')))
    = false.
Proof.
  intros H. rewrite openBatch_run in H. case_ifs H. simplify_eq.
  rewrite currentBatchId_write, batches_of_write.
  unfold requestApprovalStatus_approvalStatus. simpl.
  rewrite dec_or, !dec_and, dec_le, dec_gt, !dec_ge, !dec_asEuint32.
  repeat split; reflexivity.
Qed.

End PlaintextView.

(** ** The request and its callback *)

Section RequestCallback.
Context {F : FHELib} {D : Deployment}.

Lemma abi_decode_bool_Some data approved :
  abi_decode_bool data = Some approved →
  (32 ≤ length data)%nat
  ∧ word_value (take 32 data) = (if approved then 1 else 0).
Proof.
  unfold abi_decode_bool. cbv zeta.
  destruct (Nat.ltb_spec (length data) 32); [discriminate|].
  destruct (Z.eqb_spec (word_value (take 32 data)) 0) as [E0|_].
  - intros [= <-]. by split.
  - destruct (Z.eqb_spec (word_value (take 32 data)) 1) as [E1|_];
      [|discriminate].
    intros [= <-]. by split.
Qed.

(** X18: a callback that completes changes nothing but the [processed]
    flag of its own context: owner, provider registry, both clocks,
    cooldown, pause switch, batches, batch counter and oracle state are as
    before, every other context is as before, and the context keeps its
    batch id and digest; the decoded boolean is only emitted, not stored.
    The outcome of a callback does not depend on who calls it or when. *)
Theorem X18_callback_touches_only_its_flag env requestId cleartexts proof (s : State) :
  (∀ s' log,
     myCallback requestId cleartexts proof env s = Ok tt s' log →
     same_outside_contexts s s'
     ∧ (∀ r, r ≠ requestId →
          decryptionContexts_of s' r = decryptionContexts_of s r)
     ∧ batchId (decryptionContexts_of s' requestId)
       = batchId (decryptionContexts_of s requestId)
     ∧ stateHash (decryptionContexts_of s' requestId)
       = stateHash (decryptionContexts_of s requestId))
  ∧ (∀ env',
       myCallback requestId cleartexts proof env' s
       = myCallback requestId cleartexts proof env s).
Proof.
  split.
  - intros s' log H. rewrite myCallback_run in H. case_ifs H. simplify_eq.
    split; [by repeat split|]. split.
    + intros r Hr. rewrite decryptionContexts_of_completed.
      destruct (decide (requestId = r)); [congruence|done].
    + rewrite decryptionContexts_of_completed.
      destruct (decide (requestId = requestId)); [by split|done].
  - intros env'. by rewrite !myCallback_run.
Qed.

(** X19: a callback completes only on cleartexts of at least 32 bytes whose
    first word is 0 or 1, and the boolean it emits is that word; shorter
    cleartexts never complete, whatever the proof check says. *)
Theorem X19_callback_needs_a_boolean_word env requestId cleartexts proof (s : State) :
  (∀ s' log,
     myCallback requestId cleartexts proof env s = Ok tt s' log →
     (32 ≤ length cleartexts)%nat
     ∧ ∃ approved,
         log = [Event.DecryptionCompleted requestId
                  (batchId (decryptionContexts_of s requestId)) approved]
         ∧ word_value (take 32 cleartexts) = (if approved then 1 else 0))
  ∧ ((length cleartexts < 32)%nat →
     ¬ succeeds (myCallback requestId cleartexts proof env s)
     ∧ post_state (myCallback requestId cleartexts proof env s) s = s).
Proof.
  split.
  - intros s' log H. rewrite myCallback_run in H. case_ifs H. simplify_eq.
    match goal with H : abi_decode_bool _ = Some _ |- _ =>
      apply abi_decode_bool_Some in H as [Hlen Hword] end.
    split; [exact Hlen|]. eexists. by split.
  - intros Hlen. rewrite myCallback_run.
    assert (Hd : abi_decode_bool cleartexts = None).
    { unfold abi_decode_bool.
      by replace (length cleartexts <? 32)%nat with true
        by (symmetry; apply Nat.ltb_lt; lia). }
    rewrite Hd.
    destruct (processed _); [split; [simpl; tauto|reflexivity]|].
    destruct (negb (bool_decide _)); [split; [simpl; tauto|reflexivity]|].
    destruct (negb (FHE_checkSignatures _ _ _ _));
      (split; [simpl; tauto|reflexivity]).
Qed.

(** X20: wherever [requestApprovalStatus] is admitted, it leaves the batch
    table alone and stores an unprocessed context under the oracle's
    identifier; with nothing changed in between, a callback for that
    identifier with an accepted proof and a boolean cleartext passes the
    digest comparison and completes, emitting the batch id of the request
    and the decoded boolean, and a second callback is a replay. *)
Theorem X20_request_then_callback_completes env batchId (s s1 : State) log :
  requestApprovalStatus batchId env s = Ok tt s1 log →
  ∃ requestId,
    log = [Event.DecryptionRequested requestId batchId]
    ∧ batches s1 = batches s
    ∧ decryptionContexts_of s1 requestId = pinned_context s batchId
    ∧ ∀ env' cleartexts proof approved,
        FHE_checkSignatures (oracle s1) requestId cleartexts proof = true →
        abi_decode_bool cleartexts = Some approved →
        myCallback requestId cleartexts proof env' s1
        = Ok tt (completed requestId s1)
            [Event.DecryptionCompleted requestId batchId approved]
        ∧ ∀ env'' cleartexts' proof',
            myCallback requestId cleartexts' proof' env'' (completed requestId s1)
            = Revert Error.ReplayAttempt.
Proof.
  intros H. rewrite requestApprovalStatus_run in H. case_ifs H. simplify_eq.
  exists (oracle_reply s batchId).1.
  assert (Hctx : decryptionContexts_of (requested env batchId s)
                   (oracle_reply s batchId).1 = pinned_context s batchId).
  { unfold requested, decryptionContexts_of. simpl. apply mapping_get_insert. }
  split; [reflexivity|]. split; [reflexivity|]. split; [exact Hctx|].
  intros env' ct pf approved Hsig Hdec. split.
  - rewrite myCallback_run, Hctx, Hsig, Hdec. simpl.
    rewrite bool_decide_eq_true_2; [reflexivity|].
    unfold myCallback_currentHash. rewrite Hctx. reflexivity.
  - intros env'' ct' pf'. rewrite myCallback_run.
    rewrite decryptionContexts_of_completed.
    destruct (decide ((oracle_reply s batchId).1 = (oracle_reply s batchId).1));
      [reflexivity|done].
Qed.

End RequestCallback.

(** ** What a caller without a role can change *)

Section Outsiders.
Context {F : FHELib} {D : Deployment}.

(** X21: a successful call from anyone but the owner leaves the owner, the
    provider registry, the cooldown, the pause switch, the batch counter and
    the open flag of every batch as they were; if the caller is not a
    provider either, the whole batch table and the submission clocks are
    untouched as well. *)
Theorem X21_calls_without_a_role_change_no_settings env c (s s' : State) log :
  msg_sender env ≠ owner s →
  dispatch c env s = Ok tt s' log →
  (owner s' = owner s ∧ isProvider s' = isProvider s
   ∧ cooldownSeconds s' = cooldownSeconds s ∧ paused s' = paused s
   ∧ currentBatchId s' = currentBatchId s
   ∧ ∀ k, isOpen (batches_of s' k) = isOpen (batches_of s k))
  ∧ (isProvider_of s (msg_sender env) = false →
     batches s' = batches s ∧ lastSubmissionTime s' = lastSubmissionTime s).
Proof.
  intros Hne H.
  assert (Hb : negb (msg_sender env =? owner s) = true).
  { apply negb_true_iff, Z.eqb_neq, Hne. }
  destruct c; cbn [dispatch] in H; rewrite_run H; rewrite ?Hb in H;
    try discriminate H; case_ifs H; simplify_eq.
  - (* setPolicyParameters *)
    split; [|intros Hp; rewrite Hp in *; discriminate].
    do 5 (split; [first [reflexivity|assumption]|]). intros k.
    change (isOpen (batches_of (write_batch (currentBatchId s)
              (policy_batch threshold2 threshold4 limit
                 (batches_of s (currentBatchId s))) s) k)
            = isOpen (batches_of s k)).
    destruct (decide (k = currentBatchId s)) as [->|Hk].
    + by rewrite batches_of_write.
    + by rewrite batches_of_write_ne.
  - (* submitTransaction *)
    split; [|intros Hp; rewrite Hp in *; discriminate].
    do 5 (split; [first [reflexivity|assumption]|]). intros k.
    change (isOpen (batches_of (write_batch (currentBatchId s)
              (submitted_batch amount numApprovals
                 (batches_of s (currentBatchId s))) s) k)
            = isOpen (batches_of s k)).
    destruct (decide (k = currentBatchId s)) as [->|Hk].
    + by rewrite batches_of_write.
    + by rewrite batches_of_write_ne.
  - (* requestApprovalStatus *)
    split; [|by split]. do 5 (split; [first [reflexivity|assumption]|]). done.
  - (* myCallback *)
    split; [|by split]. do 5 (split; [first [reflexivity|assumption]|]). done.
Qed.

End Outsiders.

(** ** The further properties at concrete inputs *)

Section MoreWitnesses.
Import Sym SymLaws Run RunMore.

Lemma X1_owner_only_calls_need_the_owner_witness :
  dispatch (Call.closeBatch (F:=lib)) (at_ bob 1300) s2 = Revert Error.NotOwner.
Proof.
  assert (H : msg_sender (at_ bob 1300) ≠ owner s2) by run.
  exact (proj1 (X1_owner_only_calls_need_the_owner (at_ bob 1300)
                  (Call.closeBatch (F:=lib)) s2 I) H).
Defined.

(** Bob was never registered: his submission is turned away as
    [NotProvider] although the system is paused as well. *)
Lemma X2_provider_calls_need_a_provider_witness :
  paused s2_paused = true
  ∧ dispatch (Call.submitTransaction (F:=lib) (Input 3 1) (Input 4 1))
      (at_ bob 1300) s2_paused = Revert Error.NotProvider.
Proof.
  assert (H : isProvider_of s2_paused (msg_sender (at_ bob 1300)) = false) by run.
  split; [run|].
  exact (proj1 (X2_provider_calls_need_a_provider (at_ bob 1300)
                  (Call.submitTransaction (F:=lib) (Input 3 1) (Input 4 1))
                  s2_paused I) H).
Defined.

Lemma X3_provider_registry_updates_witness :
  ∃ s' log,
    addProvider bob (at_ alice 1000) s1 = Ok tt s' log
    ∧ log = (if isProvider_of s1 bob then [] else [Event.ProviderAdded bob])
    ∧ isProvider_of s' bob = true
    ∧ ∀ q, q ≠ bob → isProvider_of s' q = isProvider_of s1 q.
Proof.
  assert (H : msg_sender (at_ alice 1000) = owner s1) by run.
  exact (proj1 (X3_provider_registry_updates (at_ alice 1000) bob s1 H)).
Defined.

Lemma X4_provider_registry_idempotent_witness :
  run_calls [(at_ alice 1000, Call.addProvider (F:=lib) bob);
             (at_ alice 1000, Call.addProvider (F:=lib) bob)] s1
  = run_calls [(at_ alice 1000, Call.addProvider (F:=lib) bob)] s1.
Proof.
  exact (proj1 (X4_provider_registry_idempotent (at_ alice 1000) bob s1)).
Defined.

Lemma X5_pause_unpause_round_trip_witness :
  ∃ s',
    pause (at_ alice 1001) s2
      = Ok tt s' [Event.PausedContract (msg_sender (at_ alice 1001))]
    ∧ paused s' = true
    ∧ pause (at_ alice 1001) s' = Revert Error.Paused
    ∧ unpause (at_ alice 1001) s'
      = Ok tt s2 [Event.UnpausedContract (msg_sender (at_ alice 1001))].
Proof.
  assert (Ho : msg_sender (at_ alice 1001) = owner s2) by run.
  assert (Hp : paused s2 = false) by run.
  exact (proj2 (X5_pause_unpause_round_trip (at_ alice 1001) s2 Ho Hp)).
Defined.

(** On the paused system the callback for the pending request still
    completes, and it leaves batches and clocks alone. *)
Lemma X6_paused_system_keeps_batches_and_clocks_witness :
  pause_exempt (Call.myCallback (F:=lib) 0 cleartext_true proof0)
  ∧ batches (completed 0 s_pending_paused) = batches s_pending_paused
  ∧ currentBatchId (completed 0 s_pending_paused) = currentBatchId s_pending_paused
  ∧ lastSubmissionTime (completed 0 s_pending_paused)
    = lastSubmissionTime s_pending_paused
  ∧ lastDecryptionRequestTime (completed 0 s_pending_paused)
    = lastDecryptionRequestTime s_pending_paused
  ∧ oracle (completed 0 s_pending_paused) = oracle s_pending_paused.
Proof.
  assert (Hp : paused s_pending_paused = true) by run.
  assert (H : dispatch (Call.myCallback (F:=lib) 0 cleartext_true proof0)
                (at_ bob 3000) s_pending_paused
              = Ok tt (completed 0 s_pending_paused)
                  [Event.DecryptionCompleted 0 1 true]) by run.
  exact (X6_paused_system_keeps_batches_and_clocks (at_ bob 3000)
           (Call.myCallback (F:=lib) 0 cleartext_true proof0)
           s_pending_paused (completed 0 s_pending_paused)
           [Event.DecryptionCompleted 0 1 true] Hp H).
Defined.

Lemma X7_cooldown_stays_positive_witness :
  0 < cooldownSeconds s2_maxcd.
Proof.
  exact (proj1 (X7_cooldown_stays_positive s2_maxcd s2_maxcd_reachable)).
Defined.

(** After Alice hands the ownership to Bob she is turned away by
    [openBatch], and Bob, never registered, by [submitTransaction]. *)
Lemma X8_transferOwnership_moves_only_the_owner_witness :
  owner s2_bob_owner = bob
  ∧ isProvider s2_bob_owner = isProvider s2
  ∧ dispatch (Call.openBatch (F:=lib)) (at_ alice 1300) s2_bob_owner
    = Revert Error.NotOwner
  ∧ dispatch (Call.submitTransaction (F:=lib) (Input 3 1) (Input 4 1))
      (at_ bob 1300) s2_bob_owner = Revert Error.NotProvider.
Proof.
  assert (H : transferOwnership bob (at_ alice 1200) s2
              = Ok tt s2_bob_owner [Event.OwnershipTransferred alice bob]) by run.
  destruct (X8_transferOwnership_moves_only_the_owner (at_ alice 1200) bob s2
              s2_bob_owner [Event.OwnershipTransferred alice bob] H)
    as (_ & H2 & _ & H4 & H5 & H6).
  split; [exact H2|]. split; [exact H4|]. split.
  - apply H5; [run|exact I|run].
  - apply H6; [run|exact I|run].
Defined.

Lemma X9_errors_by_entry_point_witness :
  may_raise (Call.closeBatch (F:=lib)) Error.Panic.
Proof.
  assert (H : dispatch (Call.closeBatch (F:=lib)) (at_ alice 1200) s_last
              = Revert Error.Panic) by run.
  exact (X9_errors_by_entry_point (at_ alice 1200) (Call.closeBatch (F:=lib))
           s_last Error.Panic H).
Defined.

(** Alice is a provider already: adding her again emits nothing and
    changes nothing. *)
Lemma X10_no_silent_storage_change_witness :
  dispatch (Call.addProvider (F:=lib) alice) (at_ alice 1300) s2 = Ok tt s2 []
  ∧ (length (@nil Event.t) ≤ 1)%nat.
Proof.
  assert (H : dispatch (Call.addProvider (F:=lib) alice) (at_ alice 1300) s2
              = Ok tt s2 []) by run.
  split; [exact H|].
  exact (proj1 (X10_no_silent_storage_change (at_ alice 1300)
                  (Call.addProvider (F:=lib) alice) s2 s2 [] H)).
Defined.

Lemma X11_batch_table_shape_witness :
  1 ≤ currentBatchId s4
  ∧ (∀ k, id (batches_of s4 k) = 0)
  ∧ (∀ k, k < 1 ∨ currentBatchId s4 < k → batches_of s4 k = Batch_zero).
Proof. exact (X11_batch_table_shape s4 s4_reachable). Defined.

Lemma X12_no_request_is_ever_recorded_witness :
  lastDecryptionRequestTime s4 = ∅
  ∧ lastDecryptionRequestTime_of s4 alice = 0.
Proof.
  destruct s4_reachable as (env & o & Hsteps).
  destruct (X12_no_request_is_ever_recorded env o s4 Hsteps) as (H1 & H2 & _).
  split; [exact H1|exact (H2 alice)].
Defined.

Lemma X13_no_callback_completes_after_deployment_witness :
  FHE_checkSignatures (oracle s4) 0 cleartext_true proof0 = true
  ∧ myCallback 0 cleartext_true proof0 (at_ bob 3000) s4
    = Revert Error.StateMismatch.
Proof.
  split; [run|].
  assert (Hk : ∀ (l : list (@bytes32 lib)) a,
            keccak256_encode l a ≠ bytes32_zero).
  { intros l a H. discriminate H. }
  destruct s4_reachable as (env & o & Hsteps).
  exact (proj2 (X13_no_callback_completes_after_deployment env o s4 Hk Hsteps)
           0 cleartext_true proof0 (at_ bob 3000)).
Defined.

Lemma X14_policy_overwrites_and_commutes_with_submission_witness :
  encrypted_fields (batches_of s2_policy_again (currentBatchId s2))
  = (totalAmountEncrypted (batches_of s2 (currentBatchId s2)),
     numApprovalsEncrypted (batches_of s2 (currentBatchId s2)),
     Input 8 1, Input 9 1, Input 10 7).
Proof.
  assert (H1 : setPolicyParameters (Input 5 3) (Input 6 5) (Input 7 20000)
                 (at_ alice 1060) s2
               = Ok tt s2_policy [Event.PolicyParametersSubmitted 1 alice]) by run.
  assert (H2 : setPolicyParameters (Input 8 1) (Input 9 1) (Input 10 7)
                 (at_ alice 1120) s2_policy
               = Ok tt s2_policy_again [Event.PolicyParametersSubmitted 1 alice])
    by run.
  exact (proj1 (X14_policy_overwrites_and_commutes_with_submission s2
                  (Input 5 3) (Input 6 5) (Input 7 20000)
                  (Input 8 1) (Input 9 1) (Input 10 7) Uninit Uninit)
           (at_ alice 1060) (at_ alice 1120) s2_policy s2_policy_again
           [Event.PolicyParametersSubmitted 1 alice]
           [Event.PolicyParametersSubmitted 1 alice] H1 H2).
Defined.

Lemma X15_submission_adds_modulo_2_32_witness :
  dec32 (totalAmountEncrypted (batches_of s1_wrapped (currentBatchId s1_full)))
  = (dec32 (totalAmountEncrypted (batches_of s1_full (currentBatchId s1_full)))
     + dec32 (Input 3 1 : @euint32 lib)) mod 2 ^ 32.
Proof.
  assert (H : submitTransaction (Input 3 1) (Input 4 0) (at_ alice 1060) s1_full
              = Ok tt s1_wrapped [Event.TransactionSubmitted 1 alice]) by run.
  exact (proj1 (X15_submission_adds_modulo_2_32 (at_ alice 1060)
                  (Input 3 1) (Input 4 0) s1_full s1_wrapped
                  [Event.TransactionSubmitted 1 alice] H)).
Defined.

(** The wrap-around at work: a total of 2^32 - 1 with 2 approvals is above
    the limit and not approved; one more unit takes the total to 0, and the
    same 2 approvals now approve the batch. *)
Lemma wrapped_total_flips_the_predicate :
  dec32 (totalAmountEncrypted (batches_of s1_full 1)) = 2 ^ 32 - 1
  ∧ decb (requestApprovalStatus_approvalStatus (batches_of s1_full 1)) = false
  ∧ dec32 (totalAmountEncrypted (batches_of s1_wrapped 1)) = 0
  ∧ decb (requestApprovalStatus_approvalStatus (batches_of s1_wrapped 1)) = true.
Proof. repeat split; run. Qed.

Lemma X16_opened_batch_starts_unapproved_witness :
  decb (requestApprovalStatus_approvalStatus (batches_of s4 (currentBatchId s4)))
  = false.
Proof.
  assert (H : openBatch (at_ alice 1100) s3 = Ok tt s4 [Event.BatchOpened 2]) by run.
  destruct (X16_opened_batch_starts_unapproved (at_ alice 1100) s3 s4
              [Event.BatchOpened 2] H) as (_ & _ & _ & _ & _ & H6).
  exact H6.
Defined.

(** Alice submitted at time 1000 with the cooldown at 60: at 1059 her
    policy update reverts with [CooldownActive], at 1060 it goes through. *)
Lemma X17_cooldown_after_a_provider_call_witness :
  dispatch (Call.setPolicyParameters (F:=lib) (Input 5 3) (Input 6 5) (Input 7 20000))
    (at_ alice 1059) s2 = Revert Error.CooldownActive
  ∧ succeeds
      (dispatch (Call.setPolicyParameters (F:=lib) (Input 5 3) (Input 6 5) (Input 7 20000))
         (at_ alice 1060) s2).
Proof.
  assert (H : dispatch (Call.submitTransaction (F:=lib) (Input 1 5000) (Input 2 2))
                (at_ alice 1000) s1
              = Ok tt s2 [Event.TransactionSubmitted 1 alice]) by run.
  destruct (X17_cooldown_after_a_provider_call (at_ alice 1000)
              (Call.submitTransaction (F:=lib) (Input 1 5000) (Input 2 2))
              s1 s2 [Event.TransactionSubmitted 1 alice] I H) as (H1 & H2 & _).
  split.
  - apply (H1 (at_ alice 1059)); [exact I|reflexivity|run|run].
  - apply (H2 (at_ alice 1060)); [exact I|reflexivity|run|run|run].
Defined.

Lemma X18_callback_touches_only_its_flag_witness :
  same_outside_contexts s_pending s_done.
Proof.
  assert (H : myCallback 0 cleartext_true proof0 (at_ bob 3000) s_pending
              = Ok tt s_done [Event.DecryptionCompleted 0 1 true]) by run.
  exact (proj1 (proj1 (X18_callback_touches_only_its_flag (at_ bob 3000) 0
                         cleartext_true proof0 s_pending)
                  s_done [Event.DecryptionCompleted 0 1 true] H)).
Defined.

(** A one-byte cleartext with a proof the oracle accepts: the callback
    does not complete and the storage is unchanged. *)
Lemma X19_callback_needs_a_boolean_word_witness :
  FHE_checkSignatures (oracle s_pending) 0 [x01] proof0 = true
  ∧ post_state (myCallback 0 [x01] proof0 (at_ bob 3000) s_pending) s_pending
    = s_pending.
Proof.
  assert (Hlen : (length [x01] < 32)%nat) by (simpl; lia).
  split; [run|].
  exact (proj2 (proj2 (X19_callback_needs_a_boolean_word (at_ bob 3000) 0
                         [x01] proof0 s_pending) Hlen)).
Defined.

(** With batch 1 open below the current id 2 the request is admitted, is
    numbered 0 by the oracle, and its callback completes. *)
Lemma X20_request_then_callback_completes_witness :
  requestApprovalStatus 1 (at_ bob 5000) s_open_below
    = Ok tt s_open_below_requested [Event.DecryptionRequested 0 1]
  ∧ ∃ requestId,
      [Event.DecryptionRequested 0 1] = [Event.DecryptionRequested requestId 1]
      ∧ batches s_open_below_requested = batches s_open_below
      ∧ decryptionContexts_of s_open_below_requested requestId
        = pinned_context s_open_below 1
      ∧ ∀ env' cleartexts proof approved,
          FHE_checkSignatures (oracle s_open_below_requested) requestId
            cleartexts proof = true →
          abi_decode_bool cleartexts = Some approved →
          myCallback requestId cleartexts proof env' s_open_below_requested
          = Ok tt (completed requestId s_open_below_requested)
              [Event.DecryptionCompleted requestId 1 approved]
          ∧ ∀ env'' cleartexts' proof',
              myCallback requestId cleartexts' proof' env''
                (completed requestId s_open_below_requested)
              = Revert Error.ReplayAttempt.
Proof.
  assert (H : requestApprovalStatus 1 (at_ bob 5000) s_open_below
              = Ok tt s_open_below_requested [Event.DecryptionRequested 0 1]) by run.
  split; [exact H|].
  exact (X20_request_then_callback_completes (at_ bob 5000) 1 s_open_below
           s_open_below_requested [Event.DecryptionRequested 0 1] H).
Defined.

(** Bob, neither owner nor provider, completes the pending callback: the
    settings and the batch table stay as they are. *)
Lemma X21_calls_without_a_role_change_no_settings_witness :
  owner s_done = owner s_pending
  ∧ isProvider s_done = isProvider s_pending
  ∧ batches s_done = batches s_pending
  ∧ lastSubmissionTime s_done = lastSubmissionTime s_pending.
Proof.
  assert (Hne : msg_sender (at_ bob 3000) ≠ owner s_pending) by run.
  assert (Hp : isProvider_of s_pending (msg_sender (at_ bob 3000)) = false) by run.
  assert (H : dispatch (Call.myCallback (F:=lib) 0 cleartext_true proof0)
                (at_ bob 3000) s_pending
              = Ok tt s_done [Event.DecryptionCompleted 0 1 true]) by run.
  destruct (X21_calls_without_a_role_change_no_settings (at_ bob 3000)
              (Call.myCallback (F:=lib) 0 cleartext_true proof0)
              s_pending s_done [Event.DecryptionCompleted 0 1 true] Hne H)
    as ((H1 & H2 & _) & H3).
  destruct (H3 Hp) as [H4 H5].
  split; [exact H1|]. split; [exact H2|]. split; [exact H4|exact H5].
Defined.

End MoreWitnesses.
